(** * Verification of the FPL cross-provider matching and Top-100 aggregation

    Shallow embedding of
    - [fuzzywuzzy.fuzz] (pure-Python [difflib] backend) as used by the
      mapping scripts,
    - [sofa_sport/scripts/build_team_mapping.py] and
      [sofa_sport/scripts/build_player_mapping.py],
    - [etl/services/top100_etl.py] (one gameweek pass, inside Django's
      [transaction.atomic]) and
    - [etl/management/commands/sync_top100.py] (range mode). *)

From Stdlib Require Import ZArith Ascii String List Lia.
From stdpp Require Import base gmap list strings sorting.

Open Scope Z_scope.

(* ===================================================================== *)
(** ** Strings: the parts of Python's [str] the scorers use               *)
(* ===================================================================== *)

Module PyStr.

(** [str.lower] on ASCII text. *)
Definition lower_char (c : ascii) : ascii :=
  let n := nat_of_ascii c in
  if (65 <=? n)%nat && (n <=? 90)%nat then ascii_of_nat (n + 32) else c.

Definition lower (s : string) : string :=
  string_of_list_ascii (List.map lower_char (list_ascii_of_string s)).

Definition is_alnum_or_underscore (c : ascii) : bool :=
  let n := nat_of_ascii c in
  ((48 <=? n)%nat && (n <=? 57)%nat) || ((65 <=? n)%nat && (n <=? 90)%nat)
  || ((97 <=? n)%nat && (n <=? 122)%nat) || (n =? 95)%nat.

(** Lexicographic order on code points, as Python compares [str]. *)
Fixpoint chars_ltb (a b : list ascii) : bool :=
  match a, b with
  | [], [] => false
  | [], _ :: _ => true
  | _ :: _, [] => false
  | x :: a', y :: b' =>
      let nx := nat_of_ascii x in
      let ny := nat_of_ascii y in
      if (nx <? ny)%nat then true
      else if (ny <? nx)%nat then false
      else chars_ltb a' b'
  end.

(** [sorted] on a list of strings: stable insertion sort. *)
Fixpoint insert_sorted (x : list ascii) (l : list (list ascii)) :
  list (list ascii) :=
  match l with
  | [] => [x]
  | y :: l' => if chars_ltb y x then y :: insert_sorted x l' else x :: l
  end.

Definition sort_strings (l : list (list ascii)) : list (list ascii) :=
  fold_right insert_sorted [] l.

(** [s.split()] on text whose only whitespace is the space character
    (true after [full_process]): maximal runs of non-space characters. *)
Fixpoint split_spaces_aux (cur : list ascii) (s : list ascii) :
  list (list ascii) :=
  match s with
  | [] => match cur with [] => [] | _ => [rev cur] end
  | c :: s' =>
      if ascii_dec c " "%char then
        match cur with
        | [] => split_spaces_aux [] s'
        | _ => rev cur :: split_spaces_aux [] s'
        end
      else split_spaces_aux (c :: cur) s'
  end.

Definition split_spaces (s : list ascii) : list (list ascii) :=
  split_spaces_aux [] s.

Fixpoint drop_spaces (s : list ascii) : list ascii :=
  match s with
  | c :: s' => if ascii_dec c " "%char then drop_spaces s' else s
  | [] => []
  end.

(** [s.strip()] on text whose only whitespace is the space character. *)
Definition strip_spaces (s : list ascii) : list ascii :=
  rev (drop_spaces (rev (drop_spaces s))).

Fixpoint join_space (l : list (list ascii)) : list ascii :=
  match l with
  | [] => []
  | [x] => x
  | x :: l' => x ++ " "%char :: join_space l'
  end.

End PyStr.

(* ===================================================================== *)
(** ** difflib.SequenceMatcher (no junk; autojunk only acts on b of 200+) *)
(* ===================================================================== *)

Module Difflib.

Definition triple := (nat * nat * nat)%type.

Definition j2len_get (m : list (nat * nat)) (k : nat) : nat :=
  match List.find (fun p => Nat.eqb (fst p) k) m with
  | Some p => snd p
  | None => 0%nat
  end.

(** Inner loop of [find_longest_match] for one row [i]: the columns
    [j] of [b] in [blo, bhi) with [b[j] == a[i]], ascending. *)
Fixpoint flm_cols (ai : ascii) (i : nat) (b : list ascii) (js : list nat)
  (j2len : list (nat * nat)) (newj2len : list (nat * nat)) (best : triple)
  : list (nat * nat) * triple :=
  match js with
  | [] => (newj2len, best)
  | j :: js' =>
      if ascii_dec (nth j b " "%char) ai then
        let k := (match j with O => O | S j' => j2len_get j2len j' end + 1)%nat in
        let '(bi, bj, bs) := best in
        let best' := if (bs <? k)%nat then ((i + 1 - k)%nat, (j + 1 - k)%nat, k)
                     else best in
        flm_cols ai i b js' j2len ((j, k) :: newj2len) best'
      else flm_cols ai i b js' j2len newj2len best
  end.

Fixpoint flm_rows (a b : list ascii) (is_ : list nat) (blo bhi : nat)
  (j2len : list (nat * nat)) (best : triple) : triple :=
  match is_ with
  | [] => best
  | i :: is' =>
      let '(newj2len, best') :=
        flm_cols (nth i a " "%char) i b (seq blo (bhi - blo)) j2len [] best in
      flm_rows a b is' blo bhi newj2len best'
  end.

(** [find_longest_match(alo, ahi, blo, bhi)]. *)
Definition find_longest_match (a b : list ascii) (alo ahi blo bhi : nat) : triple :=
  flm_rows a b (seq alo (ahi - alo)) blo bhi [] (alo, blo, 0%nat).

(** The [while queue] loop of [get_matching_blocks]; [queue.pop()] takes
    the last element, kept here at the head. *)
Fixpoint gmb_loop (a b : list ascii) (fuel : nat)
  (queue : list (nat * nat * nat * nat)) (acc : list triple) : list triple :=
  match fuel with
  | O => acc
  | S fuel' =>
      match queue with
      | [] => acc
      | (alo, ahi, blo, bhi) :: queue' =>
          let '(i, j, k) := find_longest_match a b alo ahi blo bhi in
          match k with
          | O => gmb_loop a b fuel' queue' acc
          | _ =>
              let q1 := if (alo <? i)%nat && (blo <? j)%nat
                        then (alo, i, blo, j) :: queue' else queue' in
              let q2 := if ((i + k) <? ahi)%nat && ((j + k) <? bhi)%nat
                        then (i + k, ahi, j + k, bhi)%nat :: q1 else q1 in
              gmb_loop a b fuel' q2 ((i, j, k) :: acc)
          end
      end
  end.

Definition triple_ltb (x y : triple) : bool :=
  let '(i1, j1, k1) := x in
  let '(i2, j2, k2) := y in
  (i1 <? i2)%nat || ((i1 =? i2)%nat && ((j1 <? j2)%nat || ((j1 =? j2)%nat && (k1 <? k2)%nat))).

Fixpoint insert_triple (x : triple) (l : list triple) : list triple :=
  match l with
  | [] => [x]
  | y :: l' => if triple_ltb y x then y :: insert_triple x l' else x :: l
  end.

(** Collapsing adjacent blocks: state [(i1, j1, k1)] and the output. *)
Fixpoint collapse (cur : triple) (l : list triple) : list triple :=
  match l with
  | [] => let '(i1, j1, k1) := cur in if (k1 =? 0)%nat then [] else [cur]
  | (i2, j2, k2) :: l' =>
      let '(i1, j1, k1) := cur in
      if ((i1 + k1 =? i2)%nat && (j1 + k1 =? j2)%nat) then
        collapse (i1, j1, (k1 + k2)%nat) l'
      else (if (k1 =? 0)%nat then [] else [cur]) ++ collapse (i2, j2, k2) l'
  end.

Definition get_matching_blocks (a b : list ascii) : list triple :=
  let la := length a in
  let lb := length b in
  let found := gmb_loop a b (2 * (la + lb) + 1) [(0, la, 0, lb)%nat] [] in
  collapse (0, 0, 0)%nat (fold_right insert_triple [] found) ++ [(la, lb, 0%nat)].

Definition matches (a b : list ascii) : nat :=
  fold_left (fun acc (t : triple) => let '(_, _, k) := t in (acc + k)%nat)
    (get_matching_blocks a b) 0%nat.

End Difflib.

(* ===================================================================== *)
(** ** fuzzywuzzy.fuzz                                                    *)
(* ===================================================================== *)

Module Fuzz.

(** [int(round(100 * x))] for the ratio [x = n / d] ([d > 0]); Python's
    [round] goes half to even.  The float [x] is taken as the exact
    quotient. *)
Definition intr_100 (n d : Z) : Z :=
  let q := (100 * n) / d in
  let r := (100 * n) mod d in
  if 2 * r <? d then q
  else if d <? 2 * r then q + 1
  else if Z.even q then q else q + 1.

(** [SequenceMatcher(None, a, b).ratio()] as the pair [(2 * M, T)]. *)
Definition sm_ratio (a b : list ascii) : Z * Z :=
  (2 * Z.of_nat (Difflib.matches a b), Z.of_nat (length a + length b)).

(** The decorators [check_for_none], [check_for_equivalence] and
    [check_empty_string], in this order. *)
Definition decorated (core : string -> string -> Z) (s1 s2 : string) : Z :=
  if decide (s1 = s2) then 100
  else if (String.length s1 =? 0)%nat || (String.length s2 =? 0)%nat then 0
  else core s1 s2.

Definition ratio_core (s1 s2 : string) : Z :=
  let '(n, d) := sm_ratio (list_ascii_of_string s1) (list_ascii_of_string s2) in
  intr_100 n d.

(** [fuzz.ratio]. *)
Definition ratio (s1 s2 : string) : Z := decorated ratio_core s1 s2.

(** Largest of the block ratios [(n, d)], compared as fractions. *)
Definition max_frac (l : list (Z * Z)) : Z * Z :=
  fold_left (fun (best x : Z * Z) =>
    if fst best * snd x <? fst x * snd best then x else best) l (0, 1).

(** The loop of [partial_ratio] over the matching blocks: [None] is the
    early [return 100] (a block ratio above .995). *)
Fixpoint partial_blocks (shorter longer : list ascii)
  (blocks : list Difflib.triple) (scores : list (Z * Z)) : option (list (Z * Z)) :=
  match blocks with
  | [] => Some (rev scores)
  | (bi, bj, _) :: blocks' =>
      let long_start := (bj - bi)%nat in
      let long_substr := firstn (length shorter) (skipn long_start longer) in
      let '(n, d) := sm_ratio shorter long_substr in
      if 995 * d <? 1000 * n then None
      else partial_blocks shorter longer blocks' ((n, d) :: scores)
  end.

Definition partial_ratio_core (s1 s2 : string) : Z :=
  let a := list_ascii_of_string s1 in
  let b := list_ascii_of_string s2 in
  let '(shorter, longer) := if (length a <=? length b)%nat then (a, b) else (b, a) in
  match partial_blocks shorter longer (Difflib.get_matching_blocks shorter longer) [] with
  | None => 100
  | Some scores => let '(n, d) := max_frac scores in intr_100 n d
  end.

(** [fuzz.partial_ratio]. *)
Definition partial_ratio (s1 s2 : string) : Z := decorated partial_ratio_core s1 s2.

(** [utils.full_process(s, force_ascii=True)]: drop characters 128-255,
    replace non-word characters by spaces, lower-case, strip. *)
Definition full_process (s : string) : list ascii :=
  let cs := List.filter (fun c => (nat_of_ascii c <? 128)%nat) (list_ascii_of_string s) in
  let cs := List.map (fun c => if PyStr.is_alnum_or_underscore c then PyStr.lower_char c
                               else " "%char) cs in
  PyStr.strip_spaces cs.

(** [_process_and_sort]: tokens sorted and joined by one space. *)
Definition process_and_sort (s : string) : string :=
  string_of_list_ascii (PyStr.join_space (PyStr.sort_strings (PyStr.split_spaces (full_process s)))).

(** [fuzz.token_sort_ratio] ([_token_sort] with [partial=False]). *)
Definition token_sort_ratio (s1 s2 : string) : Z :=
  ratio (process_and_sort s1) (process_and_sort s2).

End Fuzz.
(* ===================================================================== *)
(** ** Team matching: [build_team_mapping.py]                             *)
(* ===================================================================== *)

Module TeamMapping.

(** The candidate's score: best of the three strategies. *)
Definition team_score (sofa_name fpl_name : string) : Z :=
  Z.max (Z.max (Fuzz.ratio (PyStr.lower sofa_name) (PyStr.lower fpl_name))
               (Fuzz.partial_ratio (PyStr.lower sofa_name) (PyStr.lower fpl_name)))
        (Fuzz.token_sort_ratio (PyStr.lower sofa_name) (PyStr.lower fpl_name)).

(** [(fpl_id, fpl_name, match_score)], [None] for Python's [None]. *)
Definition team_match := (option Z * option string * Z)%type.

Definition team_step (sofa_name : string) (best : team_match) (t : Z * string) : team_match :=
  let '(fpl_id, fpl_name) := t in
  let score := team_score sofa_name fpl_name in
  if snd best <? score then (Some fpl_id, Some fpl_name, score) else best.

(** [fuzzy_match_team(sofa_name, fpl_teams, threshold=80)]; [fpl_teams]
    is the [{id: name}] dict in iteration order.  [threshold] is a
    parameter of the source function that its body never reads. *)
Definition fuzzy_match_team (sofa_name : string) (fpl_teams : list (Z * string))
  (threshold : Z) : team_match :=
  fold_left (team_step sofa_name) fpl_teams (None, None, 0).

Record TeamRow := {
  tr_sofasport_id : string;
  tr_sofasport_name : string;
  tr_fpl_id : option Z;
  tr_fpl_name : option string;
  tr_match_score : Z }.

(** The loop body of [build_team_mapping] for one SofaSport team
    [(id, name)]: persist when [score >= 80]. *)
Definition map_team (fpl_teams : list (Z * string)) (mapping : gmap string TeamRow)
  (sofa_team : string * string) : gmap string TeamRow :=
  let '(sofa_id, sofa_name) := sofa_team in
  let '(fpl_id, fpl_name, score) := fuzzy_match_team sofa_name fpl_teams 80 in
  if 80 <=? score then
    <[sofa_id := {| tr_sofasport_id := sofa_id; tr_sofasport_name := sofa_name;
                    tr_fpl_id := fpl_id; tr_fpl_name := fpl_name;
                    tr_match_score := score |}]> mapping
  else mapping.

Definition build_team_mapping (fpl_teams : list (Z * string))
  (sofa_teams : list (string * string)) : gmap string TeamRow :=
  fold_left (map_team fpl_teams) sofa_teams ∅.

End TeamMapping.

(* ===================================================================== *)
(** ** Player matching: [build_player_mapping.py]                         *)
(* ===================================================================== *)

Module PlayerMapping.

Record SofaPlayer := { sp_id : string; sp_name : string; sp_short_name : string }.

Record FplPlayer := {
  fp_id : Z;
  fp_first_name : string;
  fp_second_name : string;
  fp_web_name : string;
  fp_full_name : string;
  fp_team_id : Z }.

(** The dicts built by [get_fpl_players_by_team]:
    [full_name = f"{first_name} {second_name}".strip()]. *)
Definition mk_fpl_player (id : Z) (first second web : string) (team_id : Z) : FplPlayer :=
  {| fp_id := id; fp_first_name := first; fp_second_name := second;
     fp_web_name := web;
     fp_full_name := string_of_list_ascii
       (PyStr.strip_spaces (list_ascii_of_string (first ++ " " ++ second)));
     fp_team_id := team_id |}.

Definition max_full_score (sofa_name : string) (p : FplPlayer) : Z :=
  Z.max (Z.max (Fuzz.ratio (PyStr.lower sofa_name) (PyStr.lower (fp_full_name p)))
               (Fuzz.partial_ratio (PyStr.lower sofa_name) (PyStr.lower (fp_full_name p))))
        (Fuzz.token_sort_ratio (PyStr.lower sofa_name) (PyStr.lower (fp_full_name p))).

(** The per-candidate [max_score] of [fuzzy_match_player]. *)
Definition player_score (sp : SofaPlayer) (p : FplPlayer) : Z :=
  let full := max_full_score (sp_name sp) p in
  let ms := if decide (sp_short_name sp = EmptyString) then full
            else Z.max full
                   (Z.max (Fuzz.ratio (PyStr.lower (sp_short_name sp)) (PyStr.lower (fp_second_name p)))
                          (Fuzz.ratio (PyStr.lower (sp_short_name sp)) (PyStr.lower (fp_web_name p)))) in
  if 85 <=? full then Z.max ms (full + 5) else ms.

(** [(fpl_id, fpl_web_name, fpl_full_name, match_score)]. *)
Definition player_match := (option Z * option string * option string * Z)%type.

Definition player_step (sp : SofaPlayer) (best : player_match) (p : FplPlayer) : player_match :=
  let score := player_score sp p in
  if snd best <? score then (Some (fp_id p), Some (fp_web_name p), Some (fp_full_name p), score)
  else best.

(** [fuzzy_match_player(sofa_player, fpl_players, threshold=75)];
    [threshold] is never read by the body. *)
Definition fuzzy_match_player (sp : SofaPlayer) (fpl_players : list FplPlayer)
  (threshold : Z) : player_match :=
  fold_left (player_step sp) fpl_players (None, None, None, 0).

Record PlayerRow := {
  pr_sofasport_id : string;
  pr_sofasport_name : string;
  pr_fpl_id : Z;
  pr_fpl_web_name : option string;
  pr_fpl_full_name : option string;
  pr_fpl_team_id : Z;
  pr_sofasport_team_id : string;
  pr_match_score : Z }.

(** The inner loop body of [build_player_mapping]:
    [if fpl_id and score >= 75] (an [int] id is truthy when non-zero). *)
Definition map_player (sofa_team_id : string) (fpl_team_id : Z)
  (fpl_players : list FplPlayer) (mapping : gmap string PlayerRow) (sp : SofaPlayer)
  : gmap string PlayerRow :=
  let '(fpl_id, web, full, score) := fuzzy_match_player sp fpl_players 75 in
  match fpl_id with
  | Some id =>
      if negb (id =? 0) && (75 <=? score) then
        <[sp_id sp := {| pr_sofasport_id := sp_id sp; pr_sofasport_name := sp_name sp;
                         pr_fpl_id := id; pr_fpl_web_name := web; pr_fpl_full_name := full;
                         pr_fpl_team_id := fpl_team_id; pr_sofasport_team_id := sofa_team_id;
                         pr_match_score := score |}]> mapping
      else mapping
  | None => mapping
  end.

(** One mapped team pair of [build_player_mapping]. *)
Definition map_team_players (sofa_team_id : string) (fpl_team_id : Z)
  (fpl_players : list FplPlayer) (sofa_players : list SofaPlayer)
  (mapping : gmap string PlayerRow) : gmap string PlayerRow :=
  fold_left (map_player sofa_team_id fpl_team_id fpl_players) sofa_players mapping.

End PlayerMapping.

(* ===================================================================== *)
(** ** Top-100 aggregation: [etl/services/top100_etl.py]                  *)
(* ===================================================================== *)

Module Top100.

(** *** Upstream payloads (the fields the code reads) *)

(** A row of [standings.results]; [None] is a missing key. *)
Record StandingRow := {
  sr_entry : option Z;
  sr_rank : option Z;
  sr_player_name : string;
  sr_entry_name : string;
  sr_last_rank : option Z;
  sr_total : Z;
  sr_event_total : option Z }.

Record Pick := {
  pk_element : option Z;
  pk_position : Z;
  pk_is_captain : bool;
  pk_is_vice_captain : bool;
  pk_multiplier : Z }.

(** A picks payload: [active_chip], [entry_history] as [(bank, value)]
    ([None] when missing or empty) and [picks]. *)
Record PicksData := {
  pd_active_chip : option string;
  pd_entry_history : option (Z * Z);
  pd_picks : list Pick }.

Record Transfer := {
  tf_event : option Z;
  tf_element_in : option Z;
  tf_element_out : option Z;
  tf_element_in_cost : Z;
  tf_element_out_cost : Z;
  tf_time : option string }.

(** A transfers payload: a JSON list, or any other JSON value. *)
Inductive TransfersResp :=
  | TList (l : list Transfer)
  | TOther.

(** The responses the client sees during one gameweek pass; [None] is a
    request that raised (timeout, non-2xx, body not JSON). *)
Record Upstream := {
  up_standings : Z -> option (list StandingRow);
  up_picks : Z -> option PicksData;
  up_transfers : Z -> option TransfersResp }.

Record Top100Config := { league_id : string; manager_count : Z }.

Definition default_config : Top100Config := {| league_id := "314"; manager_count := 100 |}.

(** *** Rows of the store *)

Record ManagerRow := {
  mr_player_name : string;
  mr_entry_name : string;
  mr_rank : Z;
  mr_last_rank : option Z;
  mr_total_points : Z;
  mr_event_total : Z;
  mr_active_chip : option string;
  mr_bank : Z;
  mr_team_value : Z }.

Record PickRow := {
  pr_game_week : Z;
  pr_position : Z;
  pr_is_captain : bool;
  pr_is_vice_captain : bool;
  pr_multiplier : Z }.

(** [transfer_time] keeps the payload's timestamp text. *)
Record TransferRow := {
  tr_element_in_cost : Z;
  tr_element_out_cost : Z;
  tr_transfer_time : option string }.

(** A JSON number in a summary entry: an [int], or a float produced by
    [round(x, 1)], kept as its number of tenths. *)
Inductive pyval :=
  | PInt (z : Z)
  | PFloat1 (tenths : Z).

(** A summary entry: a dict in key order. *)
Definition entry := list (string * pyval).

Record SummaryRow := {
  sm_game_week : Z;
  sm_manager_count : Z;
  sm_league_id : string;
  sm_average_points : Z;  (* in hundredths: Decimal(str(round(avg, 2))) *)
  sm_highest_points : option Z;
  sm_lowest_points : option Z;
  sm_template_team : list entry;
  sm_template_squad : list entry;
  sm_most_captained : list entry;
  sm_chip_usage : list (string * Z);
  sm_most_transferred_in : list entry;
  sm_most_transferred_out : list entry }.

(** Manager rows keyed by [(entry_id, game_week)]; pick rows by
    [(manager, athlete)]; transfer rows by
    [(manager, game_week, element_in, element_out)]; summaries by
    [game_week]. *)
Record Store := {
  athletes : gset Z;
  managers : gmap (Z * Z) ManagerRow;
  picks : gmap (Z * Z * Z) PickRow;
  transfers : gmap (Z * Z * Z * Z * Z) TransferRow;
  summaries : gmap Z SummaryRow }.

Definition set_managers (f : gmap (Z * Z) ManagerRow -> gmap (Z * Z) ManagerRow) (s : Store) : Store :=
  {| athletes := athletes s; managers := f (managers s); picks := picks s;
     transfers := transfers s; summaries := summaries s |}.
Definition set_picks (f : gmap (Z * Z * Z) PickRow -> gmap (Z * Z * Z) PickRow) (s : Store) : Store :=
  {| athletes := athletes s; managers := managers s; picks := f (picks s);
     transfers := transfers s; summaries := summaries s |}.
Definition set_transfers (f : gmap (Z * Z * Z * Z * Z) TransferRow -> gmap (Z * Z * Z * Z * Z) TransferRow)
  (s : Store) : Store :=
  {| athletes := athletes s; managers := managers s; picks := picks s;
     transfers := f (transfers s); summaries := summaries s |}.
Definition set_summaries (f : gmap Z SummaryRow -> gmap Z SummaryRow) (s : Store) : Store :=
  {| athletes := athletes s; managers := managers s; picks := picks s;
     transfers := transfers s; summaries := f (summaries s) |}.

(** *** The pass monad: state over the store, with exceptions *)

Inductive exn :=
  | StandingsRequestFailed   (* [client.get_league_standings] raised *)
  | KeyErrorEntry.           (* [manager_data["entry"]] on a row without it *)

Inductive res (A : Type) :=
  | Ok (a : A)
  | Err (e : exn).
Arguments Ok {A} a.
Arguments Err {A} e.

(** Writes made before an exception stay in the store: only
    [atomic] takes them back. *)
Definition M (A : Type) : Type := Store -> res A * Store.

Global Instance M_ret : MRet M := fun A a s => (Ok a, s).
Global Instance M_bind : MBind M := fun A B f m s =>
  match m s with
  | (Ok a, s') => f a s'
  | (Err e, s') => (Err e, s')
  end.

Definition raise {A} (e : exn) : M A := fun s => (Err e, s).
Definition modify (f : Store -> Store) : M unit := fun s => (Ok tt, f s).
Definition gets {A} (f : Store -> A) : M A := fun s => (Ok (f s), s).
Definition lift_res {A} (r : res A) : M A := fun s => (r, s).

(** [@transaction.atomic]: commit on return, roll back on exception. *)
Definition atomic {A} (m : M A) : M A := fun s =>
  match m s with
  | (Ok a, s') => (Ok a, s')
  | (Err e, _) => (Err e, s)
  end.

(** *** Python helpers *)

(** [round(n / d)] for [d > 0], half to even. *)
Definition round_half_even (n d : Z) : Z :=
  let q := n / d in
  let r := n mod d in
  if 2 * r <? d then q
  else if d <? 2 * r then q + 1
  else if Z.even q then q else q + 1.

(** [l[:n]]. *)
Definition py_slice_upto {A} (l : list A) (n : Z) : list A :=
  if 0 <=? n then firstn (Z.to_nat n) l
  else firstn (length l - Z.to_nat (- n)) l.

(** [collections.Counter] in insertion order; [c[k] += 1]. *)
Fixpoint counter_incr {K} `{EqDecision K} (k : K) (c : list (K * Z)) : list (K * Z) :=
  match c with
  | [] => [(k, 1)]
  | (k', n) :: c' => if decide (k = k') then (k', n + 1) :: c' else (k', n) :: counter_incr k c'
  end.

(** Stable placement of [x] after the entries whose count is at least its own. *)
Fixpoint insert_desc {K} (x : K * Z) (l : list (K * Z)) : list (K * Z) :=
  match l with
  | [] => [x]
  | y :: l' => if snd x <=? snd y then y :: insert_desc x l' else x :: l
  end.

(** [Counter.most_common(n)] = [sorted(items, key=count, reverse=True)[:n]]. *)
Definition most_common {K} (n : nat) (c : list (K * Z)) : list (K * Z) :=
  firstn n (fold_left (fun acc x => insert_desc x acc) c []).

(** *** Step 1: [fetch_top_managers] *)

Fixpoint fetch_pages (up : Upstream) (mc : Z) (pages : list Z) (acc : list StandingRow)
  : res (list StandingRow) :=
  match pages with
  | [] => Ok acc
  | p :: ps =>
      match up_standings up p with
      | None => Err StandingsRequestFailed
      | Some results =>
          let acc' := acc ++ results in
          if mc <=? Z.of_nat (length acc') then Ok acc' else fetch_pages up mc ps acc'
      end
  end.

Definition fetch_top_managers (up : Upstream) (config : Top100Config) : res (list StandingRow) :=
  let pages_needed := (manager_count config + 49) / 50 in
  match fetch_pages up (manager_count config)
          (map (fun k => Z.of_nat k) (seq 1 (Z.to_nat pages_needed))) [] with
  | Ok managers => Ok (py_slice_upto managers (manager_count config))
  | Err e => Err e
  end.

(** *** Step 2: the per-manager loop *)

(** [{"athlete_id", "position", "is_captain"}] of [all_picks]. *)
Record PickRec := { rec_athlete_id : Z; rec_position : Z; rec_is_captain : bool }.

(** The local accumulators of the loop. *)
Record Acc := {
  all_picks : list PickRec;
  all_transfers : list (Z * Z);
  chip_usage : list (string * Z);
  captain_picks : list (Z * Z);
  points_list : list Z }.

Definition acc0 : Acc :=
  {| all_picks := []; all_transfers := []; chip_usage := []; captain_picks := [];
     points_list := [] |}.

Definition acc_add_points (pts : Z) (a : Acc) : Acc :=
  {| all_picks := all_picks a; all_transfers := all_transfers a; chip_usage := chip_usage a;
     captain_picks := captain_picks a; points_list := points_list a ++ [pts] |}.

Definition acc_add_chip (chip : string) (a : Acc) : Acc :=
  {| all_picks := all_picks a; all_transfers := all_transfers a;
     chip_usage := counter_incr chip (chip_usage a);
     captain_picks := captain_picks a; points_list := points_list a |}.

Definition acc_add_pick (athlete_id : Z) (p : Pick) (a : Acc) : Acc :=
  {| all_picks := all_picks a ++ [{| rec_athlete_id := athlete_id; rec_position := pk_position p;
                                     rec_is_captain := pk_is_captain p |}];
     all_transfers := all_transfers a; chip_usage := chip_usage a;
     captain_picks := if pk_is_captain p then counter_incr athlete_id (captain_picks a)
                      else captain_picks a;
     points_list := points_list a |}.

Definition acc_add_transfer (i o : Z) (a : Acc) : Acc :=
  {| all_picks := all_picks a; all_transfers := all_transfers a ++ [(i, o)];
     chip_usage := chip_usage a; captain_picks := captain_picks a;
     points_list := points_list a |}.

(** [Top100Manager.objects.update_or_create(entry_id, game_week, defaults)]. *)
Definition upsert_manager (mkey : Z * Z) (md : StandingRow) (rank : Z) (s : Store) : Store :=
  set_managers (fun m =>
    let '(chip, bank, value) :=
      match m !! mkey with
      | Some r => (mr_active_chip r, mr_bank r, mr_team_value r)
      | None => (None, 0, 0)
      end in
    <[mkey := {| mr_player_name := sr_player_name md; mr_entry_name := sr_entry_name md;
                 mr_rank := rank; mr_last_rank := sr_last_rank md;
                 mr_total_points := sr_total md;
                 mr_event_total := default 0 (sr_event_total md);
                 mr_active_chip := chip; mr_bank := bank; mr_team_value := value |}]> m) s.

(** [manager.save(update_fields=["active_chip"])]. *)
Definition save_chip (mkey : Z * Z) (chip : string) (s : Store) : Store :=
  set_managers (fun m => alter (fun r =>
    {| mr_player_name := mr_player_name r; mr_entry_name := mr_entry_name r;
       mr_rank := mr_rank r; mr_last_rank := mr_last_rank r;
       mr_total_points := mr_total_points r; mr_event_total := mr_event_total r;
       mr_active_chip := Some chip; mr_bank := mr_bank r; mr_team_value := mr_team_value r |})
    mkey m) s.

(** [manager.save(update_fields=["bank", "team_value"])]. *)
Definition save_bank (mkey : Z * Z) (bank value : Z) (s : Store) : Store :=
  set_managers (fun m => alter (fun r =>
    {| mr_player_name := mr_player_name r; mr_entry_name := mr_entry_name r;
       mr_rank := mr_rank r; mr_last_rank := mr_last_rank r;
       mr_total_points := mr_total_points r; mr_event_total := mr_event_total r;
       mr_active_chip := mr_active_chip r; mr_bank := bank; mr_team_value := value |})
    mkey m) s.

(** [Top100Pick.objects.update_or_create(manager, athlete_id, defaults)]:
    every column is in [defaults]. *)
Definition upsert_pick (mkey : Z * Z) (athlete_id game_week : Z) (p : Pick) (s : Store) : Store :=
  set_picks (fun m =>
    <[(mkey, athlete_id) := {| pr_game_week := game_week; pr_position := pk_position p;
                              pr_is_captain := pk_is_captain p;
                              pr_is_vice_captain := pk_is_vice_captain p;
                              pr_multiplier := pk_multiplier p |}]> m) s.

(** [Top100Transfer.objects.get_or_create(...)]: insert when absent. *)
Definition get_or_create_transfer (k : Z * Z * Z * Z * Z) (t : Transfer) (s : Store) : Store :=
  set_transfers (fun m =>
    match m !! k with
    | Some _ => m
    | None => <[k := {| tr_element_in_cost := tf_element_in_cost t;
                        tr_element_out_cost := tf_element_out_cost t;
                        tr_transfer_time := tf_time t |}]> m
    end) s.

(** [Athlete.objects.filter(id=athlete_id).exists()]; [id=None] matches nothing. *)
Definition athlete_exists (a : option Z) (s : Store) : bool :=
  match a with
  | Some id => bool_decide (id ∈ athletes s)
  | None => false
  end.

(** The [for pick in picks] loop. *)
Fixpoint process_picks (game_week : Z) (mkey : Z * Z) (ps : list Pick) (acc : Acc) : M Acc :=
  match ps with
  | [] => mret acc
  | p :: ps' =>
      ex ← gets (athlete_exists (pk_element p));
      match ex, pk_element p with
      | true, Some a =>
          _ ← modify (upsert_pick mkey a game_week p);
          process_picks game_week mkey ps' (acc_add_pick a p acc)
      | _, _ => process_picks game_week mkey ps' acc
      end
  end.

(** The [if picks_data:] block. *)
Definition process_picks_data (game_week : Z) (mkey : Z * Z) (pd : PicksData) (acc : Acc) : M Acc :=
  acc ← (match pd_active_chip pd with
         | Some chip =>
             if decide (chip = EmptyString) then mret acc
             else _ ← modify (save_chip mkey chip); mret (acc_add_chip chip acc)
         | None => mret acc
         end);
  _ ← (match pd_entry_history pd with
       | Some (bank, value) => modify (save_bank mkey bank value)
       | None => mret tt
       end);
  process_picks game_week mkey (pd_picks pd) acc.

(** [fetch_manager_transfers]: [[]] when the request raised or the
    payload is not a list. *)
Definition fetch_manager_transfers (up : Upstream) (entry_id : Z) : list Transfer :=
  match up_transfers up entry_id with
  | Some (TList l) => l
  | _ => []
  end.

Definition is_gw_transfer (game_week : Z) (t : Transfer) : bool :=
  match tf_event t with Some e => e =? game_week | None => false end.

(** The [for transfer in gw_transfers] loop. *)
Fixpoint process_transfers (game_week : Z) (mkey : Z * Z) (ts : list Transfer) (acc : Acc) : M Acc :=
  match ts with
  | [] => mret acc
  | t :: ts' =>
      ex_in ← gets (athlete_exists (tf_element_in t));
      ex_out ← gets (athlete_exists (tf_element_out t));
      match ex_in, ex_out, tf_element_in t, tf_element_out t with
      | true, true, Some i, Some o =>
          _ ← modify (get_or_create_transfer (mkey, game_week, i, o) t);
          process_transfers game_week mkey ts' (acc_add_transfer i o acc)
      | _, _, _, _ => process_transfers game_week mkey ts' acc
      end
  end.

(** One iteration of [for idx, manager_data in enumerate(managers_data)];
    [fetch_manager_picks] returns [None] when the request raised. *)
Definition process_manager (up : Upstream) (game_week : Z) (idx : nat) (md : StandingRow)
  (acc : Acc) : M Acc :=
  match sr_entry md with
  | None => raise KeyErrorEntry
  | Some entry_id =>
      let rank := default (Z.of_nat idx + 1) (sr_rank md) in
      let mkey := (entry_id, game_week) in
      _ ← modify (upsert_manager mkey md rank);
      let acc := acc_add_points (default 0 (sr_event_total md)) acc in
      acc ← (match up_picks up entry_id with
             | Some pd => process_picks_data game_week mkey pd acc
             | None => mret acc
             end);
      process_transfers game_week mkey
        (List.filter (is_gw_transfer game_week) (fetch_manager_transfers up entry_id)) acc
  end.

Fixpoint process_managers (up : Upstream) (game_week : Z) (idx : nat) (mds : list StandingRow)
  (acc : Acc) : M Acc :=
  match mds with
  | [] => mret acc
  | md :: mds' =>
      acc ← process_manager up game_week idx md acc;
      process_managers up game_week (S idx) mds' acc
  end.

(** *** Step 3: [_compute_summary] *)

(** The ownership loop: [(squad_ownership, starting_ownership)]. *)
Definition ownership_counts (picks : list PickRec) : list (Z * Z) * list (Z * Z) :=
  fold_left (fun (c : list (Z * Z) * list (Z * Z)) (p : PickRec) =>
    let '(squad, starting) := c in
    (counter_incr (rec_athlete_id p) squad,
     if rec_position p <=? 11 then counter_incr (rec_athlete_id p) starting else starting))
    picks ([], []).

(** [round((count / manager_count) * 100, 1)], in tenths. *)
Definition percentage_tenths (count mc : Z) : Z := round_half_even (count * 1000) mc.

Definition pct_entry (mc : Z) (x : Z * Z) : entry :=
  [("athlete_id", PInt (fst x)); ("count", PInt (snd x));
   ("percentage", PFloat1 (percentage_tenths (snd x) mc))].

Definition count_entry (x : Z * Z) : entry :=
  [("athlete_id", PInt (fst x)); ("count", PInt (snd x))].

(** [sum(points_list) / len(points_list) if points_list else 0], rounded
    to 2 places, in hundredths. *)
Definition average_hundredths (pts : list Z) : Z :=
  match pts with
  | [] => 0
  | _ => round_half_even (fold_right Z.add 0 pts * 100) (Z.of_nat (length pts))
  end.

Definition list_max (pts : list Z) : option Z :=
  match pts with [] => None | x :: l => Some (fold_left Z.max l x) end.
Definition list_min (pts : list Z) : option Z :=
  match pts with [] => None | x :: l => Some (fold_left Z.min l x) end.

(** The row written by [_compute_summary]. *)
Definition summary_of (game_week : Z) (config : Top100Config) (acc : Acc) : SummaryRow :=
  let '(squad, starting) := ownership_counts (all_picks acc) in
  let mc := manager_count config in
  let transfers_in := fold_left (fun c (t : Z * Z) => counter_incr (fst t) c) (all_transfers acc) [] in
  let transfers_out := fold_left (fun c (t : Z * Z) => counter_incr (snd t) c) (all_transfers acc) [] in
  {| sm_game_week := game_week;
     sm_manager_count := mc;
     sm_league_id := league_id config;
     sm_average_points := average_hundredths (points_list acc);
     sm_highest_points := list_max (points_list acc);
     sm_lowest_points := list_min (points_list acc);
     sm_template_team := map (pct_entry mc) (most_common 11 starting);
     sm_template_squad := map (pct_entry mc) (most_common 22 squad);
     sm_most_captained := map (pct_entry mc) (most_common 5 (captain_picks acc));
     sm_chip_usage := chip_usage acc;
     sm_most_transferred_in := map count_entry (most_common 10 transfers_in);
     sm_most_transferred_out := map count_entry (most_common 10 transfers_out) |}.

(** [_compute_summary]: [Top100Summary.objects.update_or_create(game_week,
    defaults)] with every column in [defaults]. *)
Definition compute_summary (game_week : Z) (config : Top100Config) (acc : Acc) : M SummaryRow :=
  let row := summary_of game_week config acc in
  _ ← modify (set_summaries (<[game_week := row]>));
  mret row.

(** The body of [sync_top100_for_gameweek]. *)
Definition sync_body (game_week : Z) (config : Top100Config) (up : Upstream) : M SummaryRow :=
  managers_data ← lift_res (fetch_top_managers up config);
  acc ← process_managers up game_week 0 managers_data acc0;
  compute_summary game_week config acc.

(** [@transaction.atomic def sync_top100_for_gameweek(game_week, config)]. *)
Definition sync_top100_for_gameweek (game_week : Z) (config : Top100Config) (up : Upstream)
  : M SummaryRow :=
  atomic (sync_body game_week config up).

(** *** [sync_top100.py]: the [--range START_GW END_GW] branch of [handle]

    [up gw] is what the client sees during the pass for [gw].  The loop
    has no [try]: an exception leaves [handle]. *)
Fixpoint sync_gameweeks (gws : list Z) (config : Top100Config) (up : Z -> Upstream)
  : M (list SummaryRow) :=
  match gws with
  | [] => mret []
  | gw :: gws' =>
      summary ← sync_top100_for_gameweek gw config (up gw);
      rest ← sync_gameweeks gws' config up;
      mret (summary :: rest)
  end.

(** [range(start_gw, end_gw + 1)]. *)
Definition py_range_incl (start_gw end_gw : Z) : list Z :=
  map (fun k => start_gw + Z.of_nat k) (seq 0 (Z.to_nat (end_gw + 1 - start_gw))).

Definition handle_range (start_gw end_gw : Z) (config : Top100Config) (up : Z -> Upstream)
  : M (list SummaryRow) :=
  sync_gameweeks (py_range_incl start_gw end_gw) config up.

End Top100.

(* ===================================================================== *)
(** ** Concrete inputs                                                    *)
(* ===================================================================== *)

Module Samples.
Import Top100.

Definition standing (e event_total : Z) : StandingRow :=
  {| sr_entry := Some e; sr_rank := None; sr_player_name := "Manager";
     sr_entry_name := "Team"; sr_last_rank := None; sr_total := 1000;
     sr_event_total := Some event_total |}.

Definition pick (a pos : Z) (captain : bool) : Pick :=
  {| pk_element := Some a; pk_position := pos; pk_is_captain := captain;
     pk_is_vice_captain := false; pk_multiplier := if captain then 2 else 1 |}.

Definition transfer (gw i o : Z) : Transfer :=
  {| tf_event := Some gw; tf_element_in := Some i; tf_element_out := Some o;
     tf_element_in_cost := 55; tf_element_out_cost := 60;
     tf_time := Some "2024-09-13T10:00:00Z" |}.

(** The cohort of the spec's worked example: four managers, all starting
    athlete 7 (and 8), managers 1 and 2 captaining 7, each bringing in 7
    for 9 in gameweek 5. *)
Definition four_managers : Upstream :=
  {| up_standings := fun p => if p =? 1 then Some [standing 1 50; standing 2 60;
                                                   standing 3 70; standing 4 80]
                              else None;
     up_picks := fun e => Some {| pd_active_chip := if e =? 1 then Some "wildcard"%string else None;
                                 pd_entry_history := Some (5, 1000);
                                 pd_picks := [pick 7 1 (e <=? 2); pick 8 2 (2 <? e)] |};
     up_transfers := fun e => Some (TList [transfer 5 7 9]) |}.

Definition cohort4 : Top100Config := {| league_id := "314"; manager_count := 4 |}.
Definition cohort1 : Top100Config := {| league_id := "314"; manager_count := 1 |}.

Definition store0 : Store :=
  {| athletes := list_to_set [7; 8; 9]; managers := ∅; picks := ∅; transfers := ∅;
     summaries := ∅ |}.


(** One manager with a full 15-man squad in slots 1-15 whose slot-1
    athlete (99) is not in the local table. *)
Definition full_squad : list Pick :=
  pick 99 1 false :: map (fun k => pick (100 + k) k (k =? 2)) (map Z.of_nat (seq 2 14)).

Definition unknown_athlete : Upstream :=
  {| up_standings := fun p => if p =? 1 then Some [standing 21 40] else None;
     up_picks := fun _ => Some {| pd_active_chip := None; pd_entry_history := None;
                                 pd_picks := full_squad |};
     up_transfers := fun _ => Some (TList []) |}.

Definition store_squad : Store :=
  {| athletes := list_to_set (map (fun k => 100 + Z.of_nat k) (seq 2 14));
     managers := ∅; picks := ∅; transfers := ∅; summaries := ∅ |}.

(** Range mode: the standings request fails during the gameweek-1 pass
    and answers during the gameweek-2 pass. *)
Definition flaky_standings (gw : Z) : Upstream :=
  if gw =? 1 then
    {| up_standings := fun _ => None; up_picks := up_picks four_managers;
       up_transfers := up_transfers four_managers |}
  else four_managers.


(** The local table holding every athlete of [full_squad]. *)
Definition store_full : Store :=
  {| athletes := list_to_set (99 :: map (fun k => 100 + Z.of_nat k) (seq 2 14));
     managers := ∅; picks := ∅; transfers := ∅; summaries := ∅ |}.

End Samples.

Module PlayerSamples.
Import PlayerMapping.

(** The SofaSport player "Mohamed Salah" and the FPL player built by
    [get_fpl_players_by_team] for Mohamed Salah. *)
Definition salah_sofa : SofaPlayer :=
  {| sp_id := "159665"; sp_name := "Mohamed Salah"; sp_short_name := "M. Salah" |}.

End PlayerSamples.

(* ===================================================================== *)
(** ** Measures used in the statements                                    *)
(* ===================================================================== *)

Module Measures.

(** The shape of both match loops: replace the best on a strictly larger
    score. *)
Definition pick_step {C R : Type} (f : C -> Z) (g : C -> R) (best : R * Z) (c : C) : R * Z :=
  if snd best <? f c then (g c, f c) else best.

(** The highest score over the candidates, [0] when there are none. *)
Definition best_score {C : Type} (f : C -> Z) (l : list C) : Z :=
  fold_left (fun m c => Z.max m (f c)) l 0.

Definition team_candidate_score (sofa_name : string) (t : Z * string) : Z :=
  TeamMapping.team_score sofa_name (snd t).

End Measures.

Module PassMeasures.
Import Top100.

(** [m], run from any store whose athlete table is [ath], yields [r] and
    leaves the athlete table as it is. *)
Definition runs {A} (ath : gset Z) (m : M A) (r : res A) : Prop :=
  forall s, athletes s = ath -> fst (m s) = r /\ athletes (snd (m s)) = ath.

(** Every store [m] produces is related to the store it started from. *)
Definition keeps {A} (R : Store -> Store -> Prop) (m : M A) : Prop :=
  forall s, R s (snd (m s)).



(** The picks of a payload that reach [all_picks]: those naming an athlete
    of the local table. *)
Definition kept_picks (ath : gset Z) (ps : list Pick) : list (Z * Pick) :=
  omap (fun p => match pk_element p with
                 | Some a => if bool_decide (a ∈ ath) then Some (a, p) else None
                 | None => None
                 end) ps.

(** The transfers that reach [all_transfers]. *)
Definition kept_transfers (ath : gset Z) (ts : list Transfer) : list (Z * Z) :=
  omap (fun t => match tf_element_in t, tf_element_out t with
                 | Some i, Some o =>
                     if bool_decide (i ∈ ath) && bool_decide (o ∈ ath) then Some (i, o) else None
                 | _, _ => None
                 end) ts.

Definition chip_pure (pd : PicksData) (acc : Acc) : Acc :=
  match pd_active_chip pd with
  | Some chip => if decide (chip = EmptyString) then acc else acc_add_chip chip acc
  | None => acc
  end.

(** The accumulators after one manager, as a function of the athlete
    table. *)
Definition manager_pure (ath : gset Z) (up : Upstream) (game_week : Z) (md : StandingRow)
  (acc : Acc) : res Acc :=
  match sr_entry md with
  | None => Err KeyErrorEntry
  | Some e =>
      let acc := acc_add_points (default 0 (sr_event_total md)) acc in
      let acc := match up_picks up e with
                 | Some pd => fold_left (fun acc ap => acc_add_pick (fst ap) (snd ap) acc)
                                (kept_picks ath (pd_picks pd)) (chip_pure pd acc)
                 | None => acc
                 end in
      Ok (fold_left (fun acc io => acc_add_transfer (fst io) (snd io) acc)
            (kept_transfers ath (List.filter (is_gw_transfer game_week)
                                   (fetch_manager_transfers up e))) acc)
  end.

Fixpoint managers_pure (ath : gset Z) (up : Upstream) (game_week : Z) (mds : list StandingRow)
  (acc : Acc) : res Acc :=
  match mds with
  | [] => Ok acc
  | md :: mds' =>
      match manager_pure ath up game_week md acc with
      | Ok acc' => managers_pure ath up game_week mds' acc'
      | Err e => Err e
      end
  end.

(** The outcome of a gameweek pass, as a function of the athlete table. *)
Definition pass_result (ath : gset Z) (game_week : Z) (config : Top100Config) (up : Upstream)
  : res SummaryRow :=
  match fetch_top_managers up config with
  | Err e => Err e
  | Ok mds =>
      match managers_pure ath up game_week mds acc0 with
      | Ok acc => Ok (summary_of game_week config acc)
      | Err e => Err e
      end
  end.

Definition pick_rec (ap : Z * Pick) : PickRec :=
  {| rec_athlete_id := fst ap; rec_position := pk_position (snd ap);
     rec_is_captain := pk_is_captain (snd ap) |}.

(** What one standings row contributes to [all_picks]: nothing when the
    picks request raised. *)
Definition picks_contrib (ath : gset Z) (up : Upstream) (md : StandingRow) : list PickRec :=
  match sr_entry md with
  | Some e => match up_picks up e with
              | Some pd => map pick_rec (kept_picks ath (pd_picks pd))
              | None => []
              end
  | None => []
  end.

(** What one standings row contributes to [all_transfers]: nothing when
    the transfers request raised. *)
Definition transfers_contrib (ath : gset Z) (up : Upstream) (game_week : Z) (md : StandingRow)
  : list (Z * Z) :=
  match sr_entry md with
  | Some e => kept_transfers ath (List.filter (is_gw_transfer game_week) (fetch_manager_transfers up e))
  | None => []
  end.

(** A counter built by [c[k] += 1] over [ks]. *)
Definition counter_of {K} `{EqDecision K} (ks : list K) : list (K * Z) :=
  fold_left (fun c k => counter_incr k c) ks [].

(** [sum(counter.values())]. *)
Definition counter_sum {K} (c : list (K * Z)) : Z := fold_right (fun x n => snd x + n) 0 c.



Definition is_starting (p : PickRec) : bool := rec_position p <=? 11.

(** [captain_picks] counts the captain entries of [all_picks]. *)
Definition captain_inv (acc : Acc) : Prop :=
  captain_picks acc = counter_of (map rec_athlete_id (List.filter rec_is_captain (all_picks acc))).

(** Whether a standings row contributes at least one pick. *)
Definition has_picks (ath : gset Z) (up : Upstream) (md : StandingRow) : bool :=
  match picks_contrib ath up md with [] => false | _ => true end.

End PassMeasures.

Module SampleRuns.
Import Top100 PassMeasures Samples.

(** The summary returned by the four-manager gameweek-5 pass. *)
Definition row4 : SummaryRow :=
  match fst (sync_top100_for_gameweek 5 cohort4 four_managers store0) with
  | Ok r => r
  | Err _ => summary_of 5 cohort4 acc0
  end.

(** The accumulator of the [unknown_athlete] cohort against [store_full]. *)
Definition acc_full : Acc :=
  match managers_pure (athletes store_full) unknown_athlete 5 [standing 21 40] acc0 with
  | Ok a => a
  | Err _ => acc0
  end.

(** The summaries of range mode over gameweek 0 alone. *)
Definition rows0 : list SummaryRow :=
  match fst (sync_gameweeks [0] cohort4 flaky_standings store0) with
  | Ok r => r
  | Err _ => []
  end.

End SampleRuns.

(* ===================================================================== *)
(** ** The readers of [top100_etl.py] and the single mode of [handle]     *)
(* ===================================================================== *)

Module Top100Readers.
Import Top100.

(** *** [get_template_team_points_history] *)

(** [player.get(k)] on a summary entry. *)
Definition entry_get (k : string) (e : entry) : option pyval :=
  match List.find (fun kv => bool_decide (kv.1 = k)) e with
  | Some kv => Some kv.2
  | None => None
  end.

Definition gw_le (x y : Z * SummaryRow) : Prop := x.1 <= y.1.

Global Instance gw_le_dec : RelDecision gw_le := fun x y => Z.le_dec x.1 y.1.

(** [Top100Summary.objects.all()], then [filter(game_week__lte=end_gw)]
    when [end_gw] is truthy, [filter(game_week__gte=start_gw)] and
    [order_by("game_week")]; the key of [summaries] is the [game_week]
    column. *)
Definition template_summaries (start_gw : Z) (end_gw : option Z) (s : Store)
  : list (Z * SummaryRow) :=
  let rows := map_to_list (summaries s) in
  let rows := match end_gw with
              | Some e => if e =? 0 then rows else List.filter (fun r => r.1 <=? e) rows
              | None => rows
              end in
  merge_sort gw_le (List.filter (fun r => start_gw <=? r.1) rows).

(** [stat v gw] is [total_points] of
    [AthleteStat.objects.filter(athlete_id=v, game_week=gw).first()],
    [None] when that query finds no row. *)
Definition template_points (stat : option pyval -> Z -> option Z) (game_week : Z)
  (template_team : list entry) : Z :=
  fold_left (fun acc player =>
    match stat (entry_get "athlete_id" player) game_week with
    | Some pts => acc + pts
    | None => acc
    end) (py_slice_upto template_team 11) 0.

(** A dict of the returned list; [average_points] in hundredths. *)
Record TemplatePoints := {
  tp_game_week : Z;
  tp_template_points : Z;
  tp_average_points : Z;
  tp_highest_points : option Z;
  tp_lowest_points : option Z }.

Definition get_template_team_points_history (stat : option pyval -> Z -> option Z)
  (start_gw : Z) (end_gw : option Z) (s : Store) : list TemplatePoints :=
  map (fun r : Z * SummaryRow =>
         {| tp_game_week := r.1;
            tp_template_points := template_points stat r.1 (sm_template_team r.2);
            tp_average_points := sm_average_points r.2;
            tp_highest_points := sm_highest_points r.2;
            tp_lowest_points := sm_lowest_points r.2 |})
      (template_summaries start_gw end_gw s).

(** *** [get_user_team_points_history] *)

(** A number field of the history payload: an integer or [null]. *)
Inductive jnum :=
  | JNull
  | JInt (z : Z).

(** A row of [history["current"]]; [None] is a missing key. *)
Record HistoryGw := {
  hg_event : option jnum;
  hg_points : option jnum;
  hg_total_points : option jnum;
  hg_overall_rank : option jnum;
  hg_percentile_rank : option jnum;
  hg_bank : option jnum;
  hg_value : option jnum }.

(** [gw.get(k, d)]. *)
Definition get_or (v : option jnum) (d : jnum) : jnum := default d v.

Record HistoryPoint := {
  hp_game_week : Z;
  hp_points : jnum;
  hp_total_points : jnum;
  hp_overall_rank : jnum;
  hp_percentile_rank : jnum;
  hp_bank : jnum;
  hp_value : jnum }.

(** The [for gw in current] loop; [None] is the [TypeError] raised by
    [gw_num < start_gw] on a [null] event. *)
Fixpoint history_loop (start_gw : Z) (end_gw : option Z) (current : list HistoryGw)
  : option (list HistoryPoint) :=
  match current with
  | [] => Some []
  | gw :: rest =>
      match get_or (hg_event gw) (JInt 0) with
      | JNull => None
      | JInt gw_num =>
          if gw_num <? start_gw then history_loop start_gw end_gw rest
          else if match end_gw with
                  | Some e => negb (e =? 0) && (e <? gw_num)
                  | None => false
                  end
          then history_loop start_gw end_gw rest
          else match history_loop start_gw end_gw rest with
               | Some result =>
                   Some ({| hp_game_week := gw_num;
                            hp_points := get_or (hg_points gw) (JInt 0);
                            hp_total_points := get_or (hg_total_points gw) (JInt 0);
                            hp_overall_rank := get_or (hg_overall_rank gw) JNull;
                            hp_percentile_rank := get_or (hg_percentile_rank gw) JNull;
                            hp_bank := get_or (hg_bank gw) (JInt 0);
                            hp_value := get_or (hg_value gw) (JInt 0) |} :: result)
               | None => None
               end
      end
  end.

(** [history_of entry_id] is [client.get_manager_history(entry_id)]:
    [None] when the request raised, else [history.get("current")]
    ([None] for a missing key).  Every exception ends in [return []]. *)
Definition get_user_team_points_history (history_of : Z -> option (option (list HistoryGw)))
  (entry_id start_gw : Z) (end_gw : option Z) : list HistoryPoint :=
  match history_of entry_id with
  | None => []
  | Some current =>
      match history_loop start_gw end_gw (default [] current) with
      | Some result => result
      | None => []
      end
  end.

(** *** [sync_top100.py]: [get_current_gameweek] and [handle] *)

(** An entry of the bootstrap [events]: [e.get("id")] ([None] when
    missing or [null]) and the truth value of [e.get("is_current")]. *)
Record Event := { ev_id : option Z; ev_is_current : bool }.

(** [next((e for e in events if e.get("is_current")), None)], then its
    [id]; the entry found is a non-empty dict, so truthy. *)
Definition get_current_gameweek (events : list Event) : option Z :=
  match List.find ev_is_current events with
  | Some current => ev_id current
  | None => None
  end.

(** How [handle] ends: [RangeDone] and [SingleDone] carry the outcome of
    the sync calls (an [Err] leaves [handle]); [BootstrapRaised] is the
    bootstrap request raising; [NoCurrentGameweek] is the early [return]
    after the error message. *)
Inductive Outcome :=
  | RangeDone (r : res (list SummaryRow))
  | SingleDone (r : res SummaryRow)
  | BootstrapRaised
  | NoCurrentGameweek.

(** [Command.handle]: [range] is [options["range"]] ([None] when not
    given), [gameweek] the positional argument and [bootstrap] the
    [events] of [client.get_bootstrap_static()] ([None] when the request
    raised, [[]] when the key is missing). *)
Definition handle (range : option (Z * Z)) (gameweek : option Z) (config : Top100Config)
  (bootstrap : option (list Event)) (up : Z -> Upstream) (s : Store) : Outcome * Store :=
  match range with
  | Some (start_gw, end_gw) =>
      let '(r, s') := handle_range start_gw end_gw config up s in (RangeDone r, s')
  | None =>
      let sync gw := let '(r, s') := sync_top100_for_gameweek gw config (up gw) s in
                     (SingleDone r, s') in
      match gameweek with
      | Some gw => sync gw
      | None =>
          match bootstrap with
          | None => (BootstrapRaised, s)
          | Some events =>
              match get_current_gameweek events with
              | Some gw => sync gw
              | None => (NoCurrentGameweek, s)
              end
          end
      end
  end.

End Top100Readers.

(* ===================================================================== *)
(** ** The mapping scripts as whole runs                                   *)
(* ===================================================================== *)

Module TeamMappingRun.
Import TeamMapping.

(** One iteration of the [build_team_mapping] loop with its [print]:
    [f"{fpl_name:25}"] raises [TypeError] when [fpl_name] is [None].
    [None] is that exception, which leaves the function. *)
Definition map_team_checked (fpl_teams : list (Z * string))
  (mapping : option (gmap string TeamRow)) (sofa_team : string * string)
  : option (gmap string TeamRow) :=
  match mapping with
  | None => None
  | Some m =>
      let '(_, fpl_name, _) := fuzzy_match_team (snd sofa_team) fpl_teams 80 in
      match fpl_name with
      | Some _ => Some (map_team fpl_teams m sofa_team)
      | None => None
      end
  end.

Definition build_team_mapping_run (fpl_teams : list (Z * string))
  (sofa_teams : list (string * string)) : option (gmap string TeamRow) :=
  fold_left (map_team_checked fpl_teams) sofa_teams (Some ∅).

End TeamMappingRun.

Module PlayerMappingRun.
Import PlayerMapping.

(** A row of [Athlete.objects]. *)
Record AthleteRec := {
  at_id : Z;
  at_first_name : string;
  at_second_name : string;
  at_web_name : string;
  at_team_id : Z }.

(** [get_fpl_players_by_team(team_id)]. *)
Definition get_fpl_players_by_team (db : list AthleteRec) (team_id : Z) : list FplPlayer :=
  map (fun a => mk_fpl_player (at_id a) (at_first_name a) (at_second_name a)
                  (at_web_name a) team_id)
      (List.filter (fun a => at_team_id a =? team_id) db).

(** The condition [fpl_id and score >= 75] of the loop. *)
Definition player_mapped (sp : SofaPlayer) (fpl_players : list FplPlayer) : bool :=
  let '(fpl_id, _, _, score) := fuzzy_match_player sp fpl_players 75 in
  match fpl_id with
  | Some id => negb (id =? 0) && (75 <=? score)
  | None => false
  end.

(** One SofaSport player: the mapping, [total_mapped] and
    [total_unmatched]. *)
Definition count_player (sofa_team_id : string) (fpl_team_id : Z)
  (fpl_players : list FplPlayer) (st : gmap string PlayerRow * Z * Z) (sp : SofaPlayer)
  : gmap string PlayerRow * Z * Z :=
  let '(m, mapped, unmatched) := st in
  if player_mapped sp fpl_players
  then (map_player sofa_team_id fpl_team_id fpl_players m sp, mapped + 1, unmatched)
  else (m, mapped, unmatched + 1).

(** [build_player_mapping()]: [teams] is [team_mapping.items()] as
    [(sofa_team_id, team_info['fpl_id'])] and [sofa_players_of] is
    [get_sofasport_players(client, ·)].  [None] is the
    [ZeroDivisionError] of the success-rate line. *)
Definition build_player_mapping (teams : list (string * Z)) (db : list AthleteRec)
  (sofa_players_of : string -> list SofaPlayer) : option (gmap string PlayerRow) :=
  let '(m, mapped, unmatched) :=
    fold_left (fun st (t : string * Z) =>
                 fold_left (count_player t.1 t.2 (get_fpl_players_by_team db t.2))
                   (sofa_players_of t.1) st)
      teams (∅, 0, 0) in
  if mapped + unmatched =? 0 then None else Some m.

End PlayerMappingRun.

(* ===================================================================== *)
(** ** Measures used in the statements about the rest of the code         *)
(* ===================================================================== *)

Module ExtraMeasures.
Import Top100 Top100Readers.

(** [e] is the [entry] of a row of the cohort. *)
Definition in_cohort (mds : list StandingRow) (e : Z) : Prop := In (Some e) (map sr_entry mds).

(** What a pass over gameweek [gw] for the managers [E] may change: the
    athlete table stays; summaries change at [gw] only; manager rows
    change at [(e, gw)] with [E e] only and are never deleted; pick rows
    change at [((e, gw), a)] with [E e] and [a] in the athlete table
    only; an existing transfer row never changes, and new ones appear at
    [((e, gw), gw, i, o)] with [E e] and [i], [o] in the athlete table
    only. *)
Definition pass_frame (gw : Z) (E : Z -> Prop) (s s' : Store) : Prop :=
  athletes s' = athletes s /\
  (forall g, g <> gw -> summaries s' !! g = summaries s !! g) /\
  (forall e g, g <> gw \/ ~ E e -> managers s' !! (e, g) = managers s !! (e, g)) /\
  (forall k, is_Some (managers s !! k) -> is_Some (managers s' !! k)) /\
  (forall e g a, g <> gw \/ ~ E e \/ a ∉ athletes s ->
     picks s' !! (e, g, a) = picks s !! (e, g, a)) /\
  (forall k t, transfers s !! k = Some t -> transfers s' !! k = Some t) /\
  (forall e g g2 i o, g <> gw \/ g2 <> gw \/ ~ E e \/ i ∉ athletes s \/ o ∉ athletes s ->
     transfers s' !! (e, g, g2, i, o) = transfers s !! (e, g, g2, i, o)).

(** The event of a history row as a number ([0] when missing). *)
Definition event_num (gw : HistoryGw) : Z :=
  match get_or (hg_event gw) (JInt 0) with
  | JInt n => n
  | JNull => 0
  end.

(** [start_gw <= n], and [n <= end_gw] unless [end_gw] is [None] or [0]. *)
Definition in_window (start_gw : Z) (end_gw : option Z) (n : Z) : bool :=
  (start_gw <=? n) && match end_gw with
                      | Some e => (e =? 0) || (n <=? e)
                      | None => true
                      end.

End ExtraMeasures.

(* ===================================================================== *)
(** ** Measures and samples of the further properties                    *)
(* ===================================================================== *)

Module ExtraDefs.
Import Top100.

(** A ranking list of [Counter.most_common(n)]: at most [n] entries,
    distinct keys, counts not increasing. *)
Definition ranked (n : nat) (c : list (Z * Z)) : Prop :=
  (length c <= n)%nat /\ NoDup (map fst c) /\ Sorted (fun x y => snd y <= snd x) c.

(** The order of a ranking list. *)
Definition desc (x y : Z * Z) : Prop := snd y <= snd x.




End ExtraDefs.

Module MappingMeasures.
Import TeamMapping PlayerMapping PlayerMappingRun.


(** What a row of the player mapping holds. *)
Definition player_row_ok (teams : list (string * Z)) (db : list AthleteRec)
  (sofa_players_of : string -> list SofaPlayer) (k : string) (r : PlayerRow) : Prop :=
  pr_sofasport_id r = k /\ pr_fpl_id r <> 0 /\ 75 <= pr_match_score r /\
  In (pr_sofasport_team_id r, pr_fpl_team_id r) teams /\
  (exists sp, In sp (sofa_players_of (pr_sofasport_team_id r)) /\ sp_id sp = k /\
     sp_name sp = pr_sofasport_name r) /\
  exists a, In a db /\ at_id a = pr_fpl_id r /\ at_team_id a = pr_fpl_team_id r.

(** The mapping part of the [for sofa_team_id, team_info in team_mapping.items()]
    loop of [build_player_mapping], from a given mapping. *)
Definition teams_fold (teams : list (string * Z)) (db : list AthleteRec)
  (sofa_players_of : string -> list SofaPlayer) (m : gmap string PlayerRow) :=
  fold_left (fun m (t : string * Z) =>
    map_team_players t.1 t.2 (get_fpl_players_by_team db t.2) (sofa_players_of t.1) m) teams m.

End MappingMeasures.

Module ExtraSamples.
Import Top100 Samples Top100Readers PlayerMapping PlayerMappingRun PlayerSamples.

Definition page_rows (p : Z) : list StandingRow :=
  map (fun k => standing (50 * (p - 1) + Z.of_nat k) 10) (seq 1 50).

Definition two_pages : Upstream :=
  {| up_standings := fun p => if (1 <=? p) && (p <=? 2) then Some (page_rows p) else None;
     up_picks := fun _ => None;
     up_transfers := fun _ => None |}.

Definition page1_only : Upstream :=
  {| up_standings := fun p => if p =? 1 then Some (page_rows 1) else None;
     up_picks := fun _ => None;
     up_transfers := fun _ => None |}.

Definition cohort60 : Top100Config := {| league_id := "314"; manager_count := 60 |}.

Definition store_transfer : Store :=
  {| athletes := athletes store0; managers := ∅; picks := ∅;
     transfers := {[ (1, 5, 5, 7, 9) := {| tr_element_in_cost := 50; tr_element_out_cost := 65;
                                          tr_transfer_time := None |} ]};
     summaries := ∅ |}.

Definition rows23 : list SummaryRow :=
  match fst (handle_range 2 3 cohort4 flaky_standings store0) with
  | Ok r => r
  | Err _ => []
  end.

Definition hist_row (ev : option jnum) (pts : Z) : HistoryGw :=
  {| hg_event := ev; hg_points := Some (JInt pts); hg_total_points := None;
     hg_overall_rank := Some JNull; hg_percentile_rank := None; hg_bank := Some (JInt 5);
     hg_value := Some (JInt 1000) |}.

Definition history_sample (entry_id : Z) : option (option (list HistoryGw)) :=
  if entry_id =? 7 then
    Some (Some [hist_row (Some (JInt 1)) 50; hist_row (Some (JInt 2)) 60;
                hist_row (Some (JInt 3)) 70; hist_row None 0])
  else None.

Definition salah_rec : AthleteRec :=
  {| at_id := 381; at_first_name := "Mohamed"; at_second_name := "Salah";
     at_web_name := "M.Salah"; at_team_id := 14 |}.

Definition sofa_players_sample (team : string) : list SofaPlayer :=
  if decide (team = "17") then [salah_sofa] else [].

Definition player_map_sample : gmap string PlayerRow :=
  match build_player_mapping [("17", 14)] [salah_rec] sofa_players_sample with
  | Some m => m
  | None => ∅
  end.

End ExtraSamples.

(* ===================================================================== *)
(** ** Matching: first candidate with the highest score                   *)
(* ===================================================================== *)

Module Selection.
Import Measures.

Section FirstMax.
Context {C R : Type} (f : C -> Z) (g : C -> R).

Local Abbreviation pick_step := (pick_step f g).
Local Abbreviation best_score := (best_score f).

Lemma best_score_snoc l x : best_score (l ++ [x]) = Z.max (best_score l) (f x).
Proof. unfold best_score. by rewrite fold_left_app. Qed.

Lemma best_score_nonneg l : 0 <= best_score l.
Proof.
  induction l as [|x l IH] using rev_ind; [done|].
  rewrite best_score_snoc. lia.
Qed.

Lemma best_score_upper l c : In c l -> f c <= best_score l.
Proof.
  induction l as [|x l IH] using rev_ind; [done|].
  rewrite best_score_snoc, in_app_iff. intros [Hc|[<-|[]]]; [specialize (IH Hc)|]; lia.
Qed.

Lemma fold_first_max (l : list C) (r0 : R) :
  let res := fold_left pick_step l (r0, 0) in
  snd res = best_score l /\
  (snd res <= 0 -> res = (r0, 0)) /\
  (0 < snd res -> exists pre c post, l = pre ++ c :: post /\ fst res = g c /\
      f c = snd res /\ Forall (fun c' => f c' < snd res) pre).
Proof.
  induction l as [|x l IH] using rev_ind; simpl.
  { split; [reflexivity|]. split; [done|]. lia. }
  rewrite fold_left_app. simpl.
  destruct (fold_left pick_step l (r0, 0)) as [r s] eqn:Hf. cbn [fst snd] in IH.
  destruct IH as (Hs & Hle & Hlt).
  pose proof (best_score_nonneg l) as Hnn.
  rewrite best_score_snoc. unfold pick_step. cbn [fst snd].
  destruct (Z.ltb_spec s (f x)) as [Hx|Hx]; simpl.
  - split; [lia|]. split; [lia|]. intros Hpos.
    exists l, x, []. repeat split; auto.
    apply List.Forall_forall. intros c' Hc'. apply best_score_upper in Hc'. lia.
  - split; [lia|]. split; [exact Hle|]. intros Hpos.
    destruct (Hlt Hpos) as (pre & c & post & -> & ? & ? & ?).
    exists pre, c, (post ++ [x]). rewrite <- app_assoc. auto.
Qed.

Lemma fold_upper (l : list C) (r0 : R) c :
  In c l -> f c <= snd (fold_left pick_step l (r0, 0)).
Proof.
  intros Hc. destruct (fold_first_max l r0) as (-> & _).
  by apply best_score_upper.
Qed.
End FirstMax.

End Selection.

Module MatchingProofs.
Import TeamMapping PlayerMapping Measures.

Lemma fold_left_pointwise {A B} (h1 h2 : A -> B -> A) (l : list B) (a : A) :
  (forall x y, h1 x y = h2 x y) -> fold_left h1 l a = fold_left h2 l a.
Proof. intros Hext. revert a. induction l; intros; simpl; [done|]. by rewrite Hext. Qed.

Lemma fuzzy_match_team_fold sofa_name teams threshold :
  fuzzy_match_team sofa_name teams threshold =
  fold_left (pick_step (team_candidate_score sofa_name)
               (fun t : Z * string => (Some (fst t), Some (snd t))))
            teams ((None, None), 0).
Proof.
  unfold fuzzy_match_team. apply fold_left_pointwise.
  intros [[i n] s] [id name]. reflexivity.
Qed.

Lemma fuzzy_match_player_fold sp ps threshold :
  fuzzy_match_player sp ps threshold =
  fold_left (pick_step (player_score sp)
               (fun p => (Some (fp_id p), Some (fp_web_name p), Some (fp_full_name p))))
            ps ((None, None, None), 0).
Proof.
  unfold fuzzy_match_player. apply fold_left_pointwise.
  intros [[[i w] fl] s] p. reflexivity.
Qed.

Lemma fuzzy_match_team_spec sofa_name teams threshold :
  let r := fuzzy_match_team sofa_name teams threshold in
  snd r = best_score (team_candidate_score sofa_name) teams /\
  (snd r <= 0 -> r = (None, None, 0)) /\
  (0 < snd r -> exists pre id name post, teams = pre ++ (id, name) :: post /\
      r = (Some id, Some name, snd r) /\
      Forall (fun c => team_candidate_score sofa_name c < snd r) pre).
Proof.
  rewrite fuzzy_match_team_fold. simpl.
  destruct (Selection.fold_first_max (team_candidate_score sofa_name)
              (fun t : Z * string => (Some (fst t), Some (snd t))) teams (None, None))
    as (Hs & Hle & Hlt).
  repeat split; [exact Hs|exact Hle|].
  intros Hpos. destruct (Hlt Hpos) as (pre & [id name] & post & -> & Hfst & Hf & Hpre).
  exists pre, id, name, post. split; [done|]. split; [|exact Hpre].
  destruct (fold_left _ _ _) as [r s]. simpl in *. by subst.
Qed.


Lemma map_team_threshold fpl_teams mapping sofa_id sofa_name :
  let r := fuzzy_match_team sofa_name fpl_teams 80 in
  (80 <= snd r -> map_team fpl_teams mapping (sofa_id, sofa_name) !! sofa_id =
      Some {| tr_sofasport_id := sofa_id; tr_sofasport_name := sofa_name;
              tr_fpl_id := fst (fst r); tr_fpl_name := snd (fst r);
              tr_match_score := snd r |}) /\
  (snd r < 80 -> map_team fpl_teams mapping (sofa_id, sofa_name) = mapping).
Proof.
  simpl. unfold map_team.
  destruct (fuzzy_match_team sofa_name fpl_teams 80) as [[id name] score]. simpl.
  split; intros H.
  - destruct (Z.leb_spec 80 score); [|lia]. by rewrite lookup_insert_eq.
  - destruct (Z.leb_spec 80 score); [lia|done].
Qed.


End MatchingProofs.

Module MatchingClaims.
Import TeamMapping PlayerMapping Measures MatchingProofs PlayerSamples.




(** C9: an exact full-name match scores 100 on every strategy, the boost
    makes the candidate's score 105, [fuzzy_match_player] returns 105 and
    the player builder stores [match_score = 105]; in general a
    full-name score of at least 96 gives a combined score above 100, and
    the returned score is at least every candidate's. *)
Theorem fuzzy_match_player_score_exceeds_100 :
  let salah := mk_fpl_player 381 "Mohamed" "Salah" "M.Salah" 14 in
  max_full_score (sp_name salah_sofa) salah = 100 /\
  fuzzy_match_player salah_sofa [salah] 75 =
    (Some 381, Some "M.Salah", Some "Mohamed Salah", 105) /\
  map_team_players "17" 14 [salah] [salah_sofa] ∅ !! "159665" =
    Some {| pr_sofasport_id := "159665"; pr_sofasport_name := "Mohamed Salah";
            pr_fpl_id := 381; pr_fpl_web_name := Some "M.Salah";
            pr_fpl_full_name := Some "Mohamed Salah"; pr_fpl_team_id := 14;
            pr_sofasport_team_id := "17"; pr_match_score := 105 |} /\
  (forall sp p, 96 <= max_full_score (sp_name sp) p -> 100 < player_score sp p) /\
  (forall sp ps threshold p, In p ps -> player_score sp p <= snd (fuzzy_match_player sp ps threshold)).
Proof.
  split; [vm_compute; reflexivity|].
  split; [vm_compute; reflexivity|].
  split; [vm_compute; reflexivity|].
  split.
  - intros sp p H. unfold player_score.
    destruct (decide (sp_short_name sp = EmptyString)); destruct (Z.leb_spec 85 (max_full_score (sp_name sp) p)); lia.
  - intros sp ps threshold p Hin. rewrite fuzzy_match_player_fold.
    apply (Selection.fold_upper (player_score sp)). exact Hin.
Qed.

Lemma fuzzy_match_player_score_exceeds_100_witness :
  96 <= max_full_score (sp_name salah_sofa) (mk_fpl_player 381 "Mohamed" "Salah" "M.Salah" 14) /\
  100 < player_score salah_sofa (mk_fpl_player 381 "Mohamed" "Salah" "M.Salah" 14).
Proof.
  assert (H : 96 <= max_full_score (sp_name salah_sofa) (mk_fpl_player 381 "Mohamed" "Salah" "M.Salah" 14))
    by (vm_compute; discriminate).
  split; [exact H|].
  apply (proj1 (proj2 (proj2 (proj2 fuzzy_match_player_score_exceeds_100)))). exact H.
Defined.

(** C10: [fuzzy_match_team] gives the same [(fpl_id, fpl_name,
    match_score)] for any two thresholds; the builder stores the match
    exactly when that score is at least 80. *)
Theorem fuzzy_match_team_threshold_irrelevant sofa_name fpl_teams mapping sofa_id t1 t2 :
  fuzzy_match_team sofa_name fpl_teams t1 = fuzzy_match_team sofa_name fpl_teams t2 /\
  (80 <= snd (fuzzy_match_team sofa_name fpl_teams t1) ->
     map_team fpl_teams mapping (sofa_id, sofa_name) !! sofa_id =
     Some {| tr_sofasport_id := sofa_id; tr_sofasport_name := sofa_name;
             tr_fpl_id := fst (fst (fuzzy_match_team sofa_name fpl_teams t1));
             tr_fpl_name := snd (fst (fuzzy_match_team sofa_name fpl_teams t1));
             tr_match_score := snd (fuzzy_match_team sofa_name fpl_teams t1) |}) /\
  (snd (fuzzy_match_team sofa_name fpl_teams t1) < 80 ->
     map_team fpl_teams mapping (sofa_id, sofa_name) = mapping).
Proof.
  assert (Ht : forall t, fuzzy_match_team sofa_name fpl_teams t =
                         fuzzy_match_team sofa_name fpl_teams 80) by reflexivity.
  split; [reflexivity|]. rewrite (Ht t1).
  exact (map_team_threshold fpl_teams mapping sofa_id sofa_name).
Qed.

Lemma fuzzy_match_team_threshold_irrelevant_witness :
  80 <= snd (fuzzy_match_team "Man Utd" [(13, "Man City"); (14, "Man Utd")] 0) /\
  map_team [(13, "Man City"); (14, "Man Utd")] ∅ ("35", "Man Utd") !! "35" =
  Some {| tr_sofasport_id := "35"; tr_sofasport_name := "Man Utd";
          tr_fpl_id := Some 14; tr_fpl_name := Some "Man Utd"; tr_match_score := 100 |}.
Proof.
  assert (H : 80 <= snd (fuzzy_match_team "Man Utd" [(13, "Man City"); (14, "Man Utd")] 0))
    by (vm_compute; discriminate).
  split; [exact H|].
  rewrite (proj1 (proj2 (fuzzy_match_team_threshold_irrelevant "Man Utd"
             [(13, "Man City"); (14, "Man Utd")] ∅ "35" 0 0)) H).
  vm_compute. reflexivity.
Defined.

End MatchingClaims.

(* ===================================================================== *)
(** ** The gameweek pass as a function of the athlete table               *)
(* ===================================================================== *)

Module PassProofs.
Import Top100 PassMeasures.

Lemma runs_ret {A} ath (a : A) : runs ath (mret a) (Ok a).
Proof. intros s Hs. split; [done|exact Hs]. Qed.

Lemma runs_bind_ok {A B} ath (m : M A) (k : A -> M B) a r :
  runs ath m (Ok a) -> runs ath (k a) r -> runs ath (m ≫= k) r.
Proof.
  intros Hm Hk s Hs. destruct (Hm s Hs) as [H1 H2].
  cbv [mbind M_bind]. destruct (m s) as [r1 s1]. simpl in *. subst r1.
  exact (Hk s1 H2).
Qed.

Lemma runs_bind_err {A B} ath (m : M A) (k : A -> M B) e :
  runs ath m (Err e) -> runs ath (m ≫= k) (Err e).
Proof.
  intros Hm s Hs. destruct (Hm s Hs) as [H1 H2].
  cbv [mbind M_bind]. destruct (m s) as [r1 s1]. simpl in *. subst r1. auto.
Qed.

Lemma runs_modify ath f :
  (forall s, athletes (f s) = athletes s) -> runs ath (modify f) (Ok tt).
Proof. intros Hf s Hs. split; [done|]. simpl. by rewrite Hf. Qed.

Lemma runs_exists ath a :
  runs ath (gets (athlete_exists a))
       (Ok (match a with Some id => bool_decide (id ∈ ath) | None => false end)).
Proof. intros s Hs. split; [|exact Hs]. simpl. unfold athlete_exists. by rewrite Hs. Qed.

Lemma runs_raise {A} ath e : runs ath (@raise A e) (Err e).
Proof. intros s Hs. split; [done|exact Hs]. Qed.

Lemma runs_lift {A} ath (r : res A) : runs ath (lift_res r) r.
Proof. intros s Hs. split; [done|exact Hs]. Qed.

Lemma runs_atomic {A} ath (m : M A) r : runs ath m r -> runs ath (atomic m) r.
Proof.
  intros Hm s Hs. destruct (Hm s Hs) as [H1 H2]. unfold atomic.
  destruct (m s) as [[a|e] s1]; simpl in *; subst; auto.
Qed.

Create HintDb runs_db.
#[local] Hint Resolve runs_ret runs_raise runs_lift : runs_db.

Ltac runs_modify := apply runs_modify; intros; reflexivity.

Lemma runs_process_picks ath gw mkey ps acc :
  runs ath (process_picks gw mkey ps acc)
    (Ok (fold_left (fun acc ap => acc_add_pick (fst ap) (snd ap) acc) (kept_picks ath ps) acc)).
Proof.
  revert acc. induction ps as [|p ps IH]; intros acc; simpl; [auto with runs_db|].
  eapply runs_bind_ok; [apply runs_exists|].
  destruct (pk_element p) as [a|]; simpl; [|apply IH].
  destruct (bool_decide (a ∈ ath)); simpl; [|apply IH].
  eapply runs_bind_ok; [runs_modify|]. apply IH.
Qed.

Lemma runs_process_picks_data ath gw mkey pd acc :
  runs ath (process_picks_data gw mkey pd acc)
    (Ok (fold_left (fun acc ap => acc_add_pick (fst ap) (snd ap) acc)
           (kept_picks ath (pd_picks pd)) (chip_pure pd acc))).
Proof.
  unfold process_picks_data.
  apply (runs_bind_ok _ _ _ (chip_pure pd acc)).
  { unfold chip_pure. destruct (pd_active_chip pd) as [chip|]; [|apply runs_ret].
    destruct (decide (chip = EmptyString)); [apply runs_ret|].
    eapply runs_bind_ok; [runs_modify|]. apply runs_ret. }
  eapply runs_bind_ok.
  { destruct (pd_entry_history pd) as [[bank value]|]; [runs_modify|apply runs_ret]. }
  apply runs_process_picks.
Qed.

Lemma runs_process_transfers ath gw mkey ts acc :
  runs ath (process_transfers gw mkey ts acc)
    (Ok (fold_left (fun acc io => acc_add_transfer (fst io) (snd io) acc)
           (kept_transfers ath ts) acc)).
Proof.
  revert acc. induction ts as [|t ts IH]; intros acc; simpl; [auto with runs_db|].
  eapply runs_bind_ok; [apply runs_exists|].
  eapply runs_bind_ok; [apply runs_exists|].
  destruct (tf_element_in t) as [i|]; destruct (tf_element_out t) as [o|]; simpl;
    try destruct (bool_decide (i ∈ ath)); try destruct (bool_decide (o ∈ ath)); simpl;
    try apply IH.
  eapply runs_bind_ok; [runs_modify|]. apply IH.
Qed.

Lemma runs_process_manager ath up gw idx md acc :
  runs ath (process_manager up gw idx md acc) (manager_pure ath up gw md acc).
Proof.
  unfold process_manager, manager_pure.
  destruct (sr_entry md) as [e|]; [|apply runs_raise].
  eapply runs_bind_ok; [runs_modify|].
  destruct (up_picks up e) as [pd|].
  - eapply runs_bind_ok; [apply runs_process_picks_data|]. apply runs_process_transfers.
  - eapply runs_bind_ok; [apply runs_ret|]. apply runs_process_transfers.
Qed.

Lemma runs_process_managers ath up gw idx mds acc :
  runs ath (process_managers up gw idx mds acc) (managers_pure ath up gw mds acc).
Proof.
  revert idx acc. induction mds as [|md mds IH]; intros idx acc; simpl; [apply runs_ret|].
  pose proof (runs_process_manager ath up gw idx md acc) as Hm.
  destruct (manager_pure ath up gw md acc) as [acc'|e].
  - eapply runs_bind_ok; [exact Hm|]. apply IH.
  - by apply runs_bind_err.
Qed.

Lemma runs_compute_summary ath gw config acc :
  runs ath (compute_summary gw config acc) (Ok (summary_of gw config acc)).
Proof. unfold compute_summary. eapply runs_bind_ok; [runs_modify|]. apply runs_ret. Qed.

Lemma runs_sync_body ath gw config up :
  runs ath (sync_body gw config up) (pass_result ath gw config up).
Proof.
  unfold sync_body, pass_result.
  destruct (fetch_top_managers up config) as [mds|e] eqn:Hf.
  - eapply runs_bind_ok; [apply runs_lift|].
    pose proof (runs_process_managers ath up gw 0 mds acc0) as Hm.
    destruct (managers_pure ath up gw mds acc0) as [acc|e].
    + eapply runs_bind_ok; [exact Hm|]. apply runs_compute_summary.
    + by apply runs_bind_err.
  - by apply runs_bind_err, runs_lift.
Qed.

Lemma runs_sync ath gw config up :
  runs ath (sync_top100_for_gameweek gw config up) (pass_result ath gw config up).
Proof. apply runs_atomic, runs_sync_body. Qed.

End PassProofs.

(* ===================================================================== *)
(** ** Accumulators of the manager loop                                   *)
(* ===================================================================== *)

Module AccProofs.
Import Top100 PassMeasures.

Lemma counter_of_snoc {K} `{EqDecision K} (ks : list K) k :
  counter_of (ks ++ [k]) = counter_incr k (counter_of ks).
Proof. unfold counter_of. by rewrite fold_left_app. Qed.

Lemma captain_inv_add_pick a p acc : captain_inv acc -> captain_inv (acc_add_pick a p acc).
Proof.
  unfold captain_inv, acc_add_pick. simpl. intros ->.
  rewrite List.filter_app. simpl. destruct (pk_is_captain p); simpl.
  - rewrite List.map_app. simpl. by rewrite counter_of_snoc.
  - by rewrite app_nil_r.
Qed.

Lemma fold_add_pick l acc :
  let acc' := fold_left (fun acc ap => acc_add_pick (fst ap) (snd ap) acc) l acc in
  all_picks acc' = all_picks acc ++ map pick_rec l /\
  all_transfers acc' = all_transfers acc /\
  points_list acc' = points_list acc /\
  (captain_inv acc -> captain_inv acc').
Proof.
  revert acc. induction l as [|[a p] l IH]; intros acc; simpl.
  { rewrite app_nil_r. auto. }
  destruct (IH (acc_add_pick a p acc)) as (H1 & H2 & H3 & H4). simpl in *.
  rewrite H1, H2, H3. rewrite <- app_assoc. repeat split; auto.
  intros Hi. apply H4, captain_inv_add_pick, Hi.
Qed.

Lemma fold_add_transfer l acc :
  let acc' := fold_left (fun acc io => acc_add_transfer (fst io) (snd io) acc) l acc in
  all_picks acc' = all_picks acc /\
  all_transfers acc' = all_transfers acc ++ l /\
  points_list acc' = points_list acc /\
  (captain_inv acc -> captain_inv acc').
Proof.
  revert acc. induction l as [|[i o] l IH]; intros acc; simpl.
  { rewrite app_nil_r. auto. }
  destruct (IH (acc_add_transfer i o acc)) as (H1 & H2 & H3 & H4). simpl in *.
  rewrite H1, H2, H3. rewrite <- app_assoc. repeat split; auto.
Qed.

Lemma manager_pure_acc ath up gw md acc acc' :
  manager_pure ath up gw md acc = Ok acc' ->
  all_picks acc' = all_picks acc ++ picks_contrib ath up md /\
  all_transfers acc' = all_transfers acc ++ transfers_contrib ath up gw md /\
  points_list acc' = points_list acc ++ [default 0 (sr_event_total md)] /\
  (captain_inv acc -> captain_inv acc').
Proof.
  unfold manager_pure, picks_contrib, transfers_contrib.
  destruct (sr_entry md) as [e|]; [|discriminate]. intros [= <-].
  set (acc1 := acc_add_points _ acc).
  assert (Hc1 : captain_inv acc -> captain_inv acc1) by (unfold captain_inv; simpl; auto).
  destruct (up_picks up e) as [pd|].
  - set (acc2 := fold_left _ _ (chip_pure pd acc1)).
    assert (Hchip : all_picks (chip_pure pd acc1) = all_picks acc1 /\
                    all_transfers (chip_pure pd acc1) = all_transfers acc1 /\
                    points_list (chip_pure pd acc1) = points_list acc1 /\
                    (captain_inv acc1 -> captain_inv (chip_pure pd acc1))).
    { unfold chip_pure. destruct (pd_active_chip pd) as [chip|]; [|auto].
      destruct (decide (chip = EmptyString)); [auto|].
      unfold captain_inv; simpl; auto. }
    destruct (fold_add_pick (kept_picks ath (pd_picks pd)) (chip_pure pd acc1))
      as (P1 & P2 & P3 & P4).
    destruct (fold_add_transfer (kept_transfers ath (List.filter (is_gw_transfer gw)
                (fetch_manager_transfers up e))) acc2) as (T1 & T2 & T3 & T4).
    destruct Hchip as (C1 & C2 & C3 & C4).
    unfold acc2 in *. rewrite T1, T2, T3, P1, P2, P3, C1, C2, C3. simpl.
    repeat split; auto.
  - destruct (fold_add_transfer (kept_transfers ath (List.filter (is_gw_transfer gw)
                (fetch_manager_transfers up e))) acc1) as (T1 & T2 & T3 & T4).
    rewrite T1, T2, T3. simpl. rewrite app_nil_r. repeat split; auto.
Qed.

Lemma managers_pure_acc ath up gw mds acc acc' :
  managers_pure ath up gw mds acc = Ok acc' ->
  all_picks acc' = all_picks acc ++ flat_map (picks_contrib ath up) mds /\
  all_transfers acc' = all_transfers acc ++ flat_map (transfers_contrib ath up gw) mds /\
  points_list acc' = points_list acc ++ map (fun md => default 0 (sr_event_total md)) mds /\
  (captain_inv acc -> captain_inv acc').
Proof.
  revert acc. induction mds as [|md mds IH]; intros acc; simpl.
  { intros [= <-]. rewrite !app_nil_r. auto. }
  destruct (manager_pure ath up gw md acc) as [acc1|e] eqn:Hm; [|discriminate].
  intros Hrest. destruct (manager_pure_acc _ _ _ _ _ _ Hm) as (M1 & M2 & M3 & M4).
  destruct (IH acc1 Hrest) as (R1 & R2 & R3 & R4).
  rewrite R1, R2, R3, M1, M2, M3. rewrite <- !app_assoc. repeat split; auto.
Qed.


Lemma captain_inv_acc0 : captain_inv acc0.
Proof. reflexivity. Qed.

End AccProofs.

(* ===================================================================== *)
(** ** Effects of a pass on the store                                      *)
(* ===================================================================== *)

Module StoreProofs.
Import Top100 PassMeasures.

Lemma bind_ok_inv {A B} (m : M A) (k : A -> M B) s b s' :
  (m ≫= k) s = (Ok b, s') -> exists a s1, m s = (Ok a, s1) /\ k a s1 = (Ok b, s').
Proof.
  cbv [mbind M_bind]. destruct (m s) as [[a|e] s1]; [|discriminate]. eauto.
Qed.

Lemma sync_err_rollback gw config up s e :
  fst (sync_top100_for_gameweek gw config up s) = Err e ->
  snd (sync_top100_for_gameweek gw config up s) = s.
Proof.
  unfold sync_top100_for_gameweek, atomic.
  destruct (sync_body gw config up s) as [[a|e'] s1]; simpl; [discriminate|auto].
Qed.

Lemma sync_body_ok_summary gw config up s row s' :
  sync_body gw config up s = (Ok row, s') -> summaries s' !! gw = Some row.
Proof.
  unfold sync_body. intros H.
  destruct (bind_ok_inv _ _ _ _ _ H) as (mds & s1 & _ & H1).
  destruct (bind_ok_inv _ _ _ _ _ H1) as (acc & s2 & _ & H2).
  unfold compute_summary in H2.
  destruct (bind_ok_inv _ _ _ _ _ H2) as (u & s3 & H3 & H4).
  cbv [mret M_ret modify] in H3, H4. injection H3 as <-. injection H4 as <- <-.
  subst. simpl. by rewrite lookup_insert_eq.
Qed.

Lemma sync_ok_commit gw config up s row :
  fst (sync_top100_for_gameweek gw config up s) = Ok row ->
  snd (sync_top100_for_gameweek gw config up s) = snd (sync_body gw config up s) /\
  summaries (snd (sync_top100_for_gameweek gw config up s)) !! gw = Some row.
Proof.
  unfold sync_top100_for_gameweek, atomic.
  destruct (sync_body gw config up s) as [[a|e'] s1] eqn:Hb; simpl; [|discriminate].
  intros [= <-]. split; [done|]. exact (sync_body_ok_summary _ _ _ _ _ _ Hb).
Qed.


Section Frame.
Context (R : Store -> Store -> Prop).
Hypothesis R_refl : forall s, R s s.
Hypothesis R_trans : forall s1 s2 s3, R s1 s2 -> R s2 s3 -> R s1 s3.







End Frame.















End StoreProofs.

(* ===================================================================== *)
(** ** Counters and the reducer                                           *)
(* ===================================================================== *)

Module CounterProofs.
Import Top100 PassMeasures AccProofs.






(** The keys of a counter after [c[k] += 1]. *)
Lemma counter_incr_keys (k a : Z) c :
  In a (map fst (counter_incr k c)) <-> a = k \/ In a (map fst c).
Proof.
  induction c as [|[k' n] c IH]; simpl; [intuition congruence|].
  destruct (decide (k = k')) as [->|Hne]; simpl; [intuition congruence|]. rewrite IH. intuition congruence.
Qed.

Lemma counter_incr_nodup (k : Z) c : NoDup (map fst c) -> NoDup (map fst (counter_incr k c)).
Proof.
  induction c as [|[k' n] c IH]; simpl; intros Hd.
  - constructor; [apply not_elem_of_nil|constructor].
  - inversion Hd as [|? ? Hx Hl]; subst.
    destruct (decide (k = k')) as [->|Hne]; simpl; [exact Hd|].
    constructor; [|by apply IH].
    rewrite list_elem_of_In, counter_incr_keys. rewrite list_elem_of_In in Hx. intuition.
Qed.






Lemma counter_sum_incr (k : Z) c : counter_sum (counter_incr k c) = counter_sum c + 1.
Proof.
  unfold counter_sum in *. induction c as [|[k' n] c IH]; simpl; [reflexivity|].
  destruct (decide (k = k')); simpl; lia.
Qed.

Lemma counter_sum_of (l : list Z) : counter_sum (counter_of l) = Z.of_nat (length l).
Proof.
  induction l as [|k l IH] using rev_ind; [reflexivity|].
  rewrite counter_of_snoc, counter_sum_incr, IH, length_app. simpl. lia.
Qed.

(** The ownership loop builds the two counters of the pick list. *)
Lemma ownership_counts_eq picks :
  ownership_counts picks =
  (counter_of (map rec_athlete_id picks),
   counter_of (map rec_athlete_id (List.filter is_starting picks))).
Proof.
  induction picks as [|p picks IH] using rev_ind; [reflexivity|].
  unfold ownership_counts in *. rewrite fold_left_app, IH. simpl.
  rewrite List.filter_app, !List.map_app. simpl. rewrite counter_of_snoc.
  unfold is_starting. destruct (rec_position p <=? 11); simpl;
    [by rewrite counter_of_snoc|by rewrite app_nil_r].
Qed.








Lemma length_flat_map {A B} (f : A -> list B) l :
  length (flat_map f l) = fold_right (fun x n => (length (f x) + n)%nat) 0%nat l.
Proof. induction l as [|x l IH]; simpl; [done|]. by rewrite length_app, IH. Qed.

End CounterProofs.

(* ===================================================================== *)
(** ** Facts about one pass and about range mode                          *)
(* ===================================================================== *)

Module PassFacts.
Import Top100 PassMeasures AccProofs StoreProofs CounterProofs.

(** A pass that returns normally returned the summary of the cohort it
    fetched, accumulated against the athlete table it started from. *)
Lemma sync_ok_pass gw config up s row :
  fst (sync_top100_for_gameweek gw config up s) = Ok row ->
  exists mds acc, fetch_top_managers up config = Ok mds /\
    managers_pure (athletes s) up gw mds acc0 = Ok acc /\ row = summary_of gw config acc.
Proof.
  destruct (PassProofs.runs_sync (athletes s) gw config up s eq_refl) as [-> _].
  unfold pass_result.
  destruct (fetch_top_managers up config) as [mds|e]; [|discriminate].
  destruct (managers_pure (athletes s) up gw mds acc0) as [acc|e] eqn:E; [|discriminate].
  intros [= <-]. eauto.
Qed.



(** The fields of the summary row, with the ownership counters written
    as counters of the pick list. *)
Lemma summary_of_fields gw config acc :
  let mc := manager_count config in
  sm_template_team (summary_of gw config acc) =
    map (pct_entry mc) (most_common 11
      (counter_of (map rec_athlete_id (List.filter is_starting (all_picks acc))))) /\
  sm_template_squad (summary_of gw config acc) =
    map (pct_entry mc) (most_common 22 (counter_of (map rec_athlete_id (all_picks acc)))) /\
  sm_most_captained (summary_of gw config acc) =
    map (pct_entry mc) (most_common 5 (captain_picks acc)) /\
  sm_most_transferred_in (summary_of gw config acc) =
    map count_entry (most_common 10
      (fold_left (fun c (t : Z * Z) => counter_incr (fst t) c) (all_transfers acc) [])) /\
  sm_most_transferred_out (summary_of gw config acc) =
    map count_entry (most_common 10
      (fold_left (fun c (t : Z * Z) => counter_incr (snd t) c) (all_transfers acc) [])) /\
  sm_average_points (summary_of gw config acc) = average_hundredths (points_list acc).
Proof. unfold summary_of. rewrite ownership_counts_eq. repeat split. Qed.




(** [length] of the picks of a cohort, when each row contributes
    either nothing or [k] picks. *)
Lemma length_flat_map_uniform (f : StandingRow -> list PickRec) (g : StandingRow -> bool) k mds :
  Forall (fun md => (g md = false /\ f md = []) \/ (g md = true /\ length (f md) = k)) mds ->
  length (flat_map f mds) = (k * length (List.filter g mds))%nat.
Proof.
  induction 1 as [|md mds [[Hg Hf]|[Hg Hf]] _ IH]; simpl; [lia| |];
    rewrite length_app, IH, Hg, ?Hf; simpl; lia.
Qed.

Lemma filter_flat_map {A B} (P : B -> bool) (f : A -> list B) l :
  List.filter P (flat_map f l) = flat_map (fun x => List.filter P (f x)) l.
Proof. induction l as [|x l IH]; simpl; [done|by rewrite List.filter_app, IH]. Qed.

(** Range mode runs the passes one after the other and stops at the
    first that raises. *)
Lemma sync_gameweeks_err_head gw rest config up s e :
  fst (sync_top100_for_gameweek gw config (up gw) s) = Err e ->
  sync_gameweeks (gw :: rest) config up s = (Err e, s).
Proof.
  intros He. pose proof (sync_err_rollback _ _ _ _ _ He) as Hs.
  change (sync_gameweeks (gw :: rest) config up s) with
    ((summary ← sync_top100_for_gameweek gw config (up gw);
      rest' ← sync_gameweeks rest config up; mret (summary :: rest')) s).
  cbv [mbind M_bind].
  destruct (sync_top100_for_gameweek gw config (up gw) s) as [[r|e'] s'] eqn:E;
    simpl in He, Hs; [discriminate|]. injection He as ->. by subst.
Qed.

End PassFacts.

(* ===================================================================== *)
(** ** The claims about a gameweek pass and range mode                    *)
(* ===================================================================== *)

Module PassClaims.
Import Top100 PassMeasures AccProofs StoreProofs CounterProofs PassFacts Samples SampleRuns.












(** C6 (counterexample): one manager with a full 15-pick squad, its
    slot-1 athlete missing from the local table: the squad counts sum to
    14 and the starting counts to 10, not 15 and 11. *)
Lemma unknown_athlete_breaks_ownership_sums :
  fetch_top_managers unknown_athlete cohort1 = Ok [standing 21 40] /\
  length full_squad = 15%nat /\
  match managers_pure (athletes store_squad) unknown_athlete 5 [standing 21 40] acc0 with
  | Ok acc => counter_sum (fst (ownership_counts (all_picks acc))) = 14 /\
              counter_sum (snd (ownership_counts (all_picks acc))) = 10 /\
              length (List.filter (has_picks (athletes store_squad) unknown_athlete)
                        [standing 21 40]) = 1%nat
  | Err _ => False
  end.
Proof. split; [vm_compute; reflexivity|]. split; [reflexivity|]. vm_compute. auto. Qed.

(** C6 (amended): over the accumulator of a cohort, the squad counts sum
    to the number of kept picks (those naming an athlete of the local
    table) and the starting counts to the number of those in slots 1-11;
    so they are [15 * M] and [11 * M], [M] the managers with a kept pick,
    exactly when each such manager has 15 kept picks, 11 of them
    starting. *)
Theorem ownership_sums_count_kept_picks ath up gw mds acc :
  managers_pure ath up gw mds acc0 = Ok acc ->
  counter_sum (fst (ownership_counts (all_picks acc))) =
    Z.of_nat (length (flat_map (picks_contrib ath up) mds)) /\
  counter_sum (snd (ownership_counts (all_picks acc))) =
    Z.of_nat (length (List.filter is_starting (flat_map (picks_contrib ath up) mds))) /\
  (Forall (fun md => has_picks ath up md = false \/
                     (length (picks_contrib ath up md) = 15%nat /\
                      length (List.filter is_starting (picks_contrib ath up md)) = 11%nat)) mds ->
   counter_sum (fst (ownership_counts (all_picks acc))) =
     15 * Z.of_nat (length (List.filter (has_picks ath up) mds)) /\
   counter_sum (snd (ownership_counts (all_picks acc))) =
     11 * Z.of_nat (length (List.filter (has_picks ath up) mds))).
Proof.
  intros Hm. destruct (managers_pure_acc _ _ _ _ _ _ Hm) as (Hp & _).
  simpl in Hp. rewrite ownership_counts_eq, Hp. simpl.
  rewrite !counter_sum_of, !length_map.
  split; [done|]. split; [done|]. intros Hall.
  assert (Hpick : forall md, has_picks ath up md = false <-> picks_contrib ath up md = []).
  { intros md. unfold has_picks. destruct (picks_contrib ath up md); split; done. }
  rewrite (length_flat_map_uniform _ (has_picks ath up) 15), filter_flat_map,
          (length_flat_map_uniform _ (has_picks ath up) 11); [lia| |].
  - eapply Forall_impl; [exact Hall|]. intros md [Hf|[H15 H11]]; [left|right].
    + split; [exact Hf|]. apply Hpick in Hf. by rewrite Hf.
    + split; [|exact H11]. unfold has_picks. by destruct (picks_contrib ath up md).
  - eapply Forall_impl; [exact Hall|]. intros md [Hf|[H15 H11]]; [left|right].
    + split; [exact Hf|by apply Hpick].
    + split; [|exact H15]. unfold has_picks. by destruct (picks_contrib ath up md).
Qed.

Lemma ownership_sums_count_kept_picks_witness :
  counter_sum (fst (ownership_counts (all_picks acc_full))) = 15 /\
  counter_sum (snd (ownership_counts (all_picks acc_full))) = 11.
Proof.
  destruct (ownership_sums_count_kept_picks (athletes store_full) unknown_athlete 5
              [standing 21 40] acc_full ltac:(vm_compute; reflexivity)) as (_ & _ & H).
  destruct H as [H15 H11]; [|rewrite H15, H11; vm_compute; split; reflexivity].
  constructor; [right; vm_compute; split; reflexivity|constructor].
Defined.

(** C7 (counterexample): range mode over gameweeks 1-2 where the
    standings request fails during the gameweek-1 pass raises, and no
    summary is stored for gameweek 2, although the gameweek-2 pass on
    its own returns normally. *)
Lemma range_halts_at_failed_gameweek :
  fst (handle_range 1 2 cohort4 flaky_standings store0) = Err StandingsRequestFailed /\
  summaries (snd (handle_range 1 2 cohort4 flaky_standings store0)) !! 2 = None /\
  match fst (sync_top100_for_gameweek 2 cohort4 (flaky_standings 2) store0) with
  | Ok _ => True
  | Err _ => False
  end.
Proof. split; [vm_compute; reflexivity|]. split; [vm_compute; reflexivity|]. vm_compute. exact I. Qed.

(** C7 (amended): range mode commits the passes before the first one
    that raises, rolls that one back, runs none after it, and raises its
    exception. *)
Theorem range_stops_at_first_failed_pass gws_done gw rest config up s rows e :
  fst (sync_gameweeks gws_done config up s) = Ok rows ->
  fst (sync_top100_for_gameweek gw config (up gw) (snd (sync_gameweeks gws_done config up s))) = Err e ->
  sync_gameweeks (gws_done ++ gw :: rest) config up s =
    (Err e, snd (sync_gameweeks gws_done config up s)).
Proof.
  revert s rows. induction gws_done as [|g gws IH]; intros s rows Hd He.
  - exact (sync_gameweeks_err_head gw rest config up s e He).
  - simpl in Hd, He |- *. cbv [mbind M_bind] in Hd, He |- *.
    destruct (sync_top100_for_gameweek g config (up g) s) as [[r|e'] s1];
      simpl in Hd, He |- *; [|discriminate].
    destruct (sync_gameweeks gws config up s1) as [[rs|e'] s2] eqn:E;
      simpl in Hd, He |- *; [|discriminate].
    assert (Hrec := IH s1 rs ltac:(by rewrite E) ltac:(by rewrite E)).
    rewrite Hrec, E. reflexivity.
Qed.

Lemma range_stops_at_first_failed_pass_witness :
  sync_gameweeks [0; 1; 2] cohort4 flaky_standings store0 =
    (Err StandingsRequestFailed, snd (sync_gameweeks [0] cohort4 flaky_standings store0)).
Proof.
  exact (range_stops_at_first_failed_pass [0] 1 [2] cohort4 flaky_standings store0 rows0
           StandingsRequestFailed ltac:(vm_compute; reflexivity) ltac:(vm_compute; reflexivity)).
Defined.

(** C8: re-running a pass on the store the first run left returns the
    same result and leaves the same summary row for the gameweek. *)
Theorem sync_rerun_same_summary gw config up s :
  fst (sync_top100_for_gameweek gw config up (snd (sync_top100_for_gameweek gw config up s))) =
    fst (sync_top100_for_gameweek gw config up s) /\
  summaries (snd (sync_top100_for_gameweek gw config up
                   (snd (sync_top100_for_gameweek gw config up s)))) !! gw =
    summaries (snd (sync_top100_for_gameweek gw config up s)) !! gw.
Proof.
  set (s1 := snd (sync_top100_for_gameweek gw config up s)).
  destruct (PassProofs.runs_sync (athletes s) gw config up s eq_refl) as [H0 Ha].
  fold s1 in Ha.
  destruct (PassProofs.runs_sync (athletes s) gw config up s1 Ha) as [H1 _].
  assert (Hfst : fst (sync_top100_for_gameweek gw config up s1) =
                 fst (sync_top100_for_gameweek gw config up s)) by congruence.
  split; [exact Hfst|].
  destruct (fst (sync_top100_for_gameweek gw config up s)) as [row|e] eqn:E.
  - rewrite (proj2 (sync_ok_commit _ _ _ _ _ Hfst)).
    subst s1. by rewrite (proj2 (sync_ok_commit _ _ _ _ _ E)).
  - by rewrite (sync_err_rollback _ _ _ _ _ Hfst).
Qed.

Lemma sync_rerun_same_summary_witness :
  fst (sync_top100_for_gameweek 5 cohort4 four_managers
         (snd (sync_top100_for_gameweek 5 cohort4 four_managers store0))) = Ok row4.
Proof.
  rewrite (proj1 (sync_rerun_same_summary 5 cohort4 four_managers store0)).
  vm_compute. reflexivity.
Defined.

End PassClaims.


Module FetchProofs.
Import Top100 Samples ExtraSamples.

Lemma py_slice_nonneg {A} (l : list A) n : 0 <= n -> py_slice_upto l n = firstn (Z.to_nat n) l.
Proof. intros Hn. unfold py_slice_upto. by rewrite (proj2 (Z.leb_le 0 n) Hn). Qed.

Lemma pages_none mc : mc <= 0 -> Z.to_nat ((mc + 49) / 50) = 0%nat.
Proof. intros Hmc. assert ((mc + 49) / 50 < 1) by (apply Z.div_lt_upper_bound; lia). lia. Qed.

Lemma fetch_pages_answered up mc (rs : Z -> list StandingRow) pages acc :
  0 <= mc ->
  (forall p, In p pages -> up_standings up p = Some (rs p)) ->
  exists r, fetch_pages up mc pages acc = Ok r /\
    firstn (Z.to_nat mc) r = firstn (Z.to_nat mc) (acc ++ flat_map rs pages).
Proof.
  intros Hmc. revert acc. induction pages as [|p ps IH]; intros acc Hall; simpl.
  { exists acc. by rewrite app_nil_r. }
  rewrite (Hall p (or_introl eq_refl)).
  destruct (Z.leb_spec mc (Z.of_nat (length (acc ++ rs p)))) as [Hle|Hlt].
  - exists (acc ++ rs p). split; [done|].
    rewrite app_assoc, (firstn_app _ (acc ++ rs p)).
    replace (Z.to_nat mc - length (acc ++ rs p))%nat with 0%nat by lia.
    by rewrite firstn_O, app_nil_r.
  - destruct (IH (acc ++ rs p)) as (r & Hr & Hf); [intros q Hq; apply Hall; by right|].
    exists r. split; [exact Hr|]. by rewrite Hf, app_assoc.
Qed.

Lemma fetch_pages_fails up mc (rs : Z -> list StandingRow) pre p post acc :
  (forall q, In q pre -> up_standings up q = Some (rs q)) ->
  Z.of_nat (length (acc ++ flat_map rs pre)) < mc ->
  up_standings up p = None ->
  fetch_pages up mc (pre ++ p :: post) acc = Err StandingsRequestFailed.
Proof.
  revert acc. induction pre as [|q pre IH]; intros acc Hall Hlen Hp; simpl.
  { by rewrite Hp. }
  rewrite (Hall q (or_introl eq_refl)).
  simpl in Hlen. rewrite app_assoc, length_app in Hlen.
  destruct (Z.leb_spec mc (Z.of_nat (length (acc ++ rs q)))) as [Hle|_]; [lia|].
  apply IH; [intros q' Hq'; apply Hall; by right|rewrite length_app; lia|exact Hp].
Qed.

(** X1: when every standings page from 1 to [ceil(manager_count / 50)] is answered, [fetch_top_managers] returns the first [manager_count] rows of those pages, in page order. *)
Theorem fetch_top_managers_first_rows up config (rs : Z -> list StandingRow) :
  0 <= manager_count config ->
  (forall p, 1 <= p <= (manager_count config + 49) / 50 -> up_standings up p = Some (rs p)) ->
  fetch_top_managers up config =
    Ok (firstn (Z.to_nat (manager_count config))
          (flat_map rs (map Z.of_nat (seq 1 (Z.to_nat ((manager_count config + 49) / 50)))))).
Proof.
  intros Hmc Hall. unfold fetch_top_managers.
  change (map (fun k : nat => Z.of_nat k)) with (map Z.of_nat).
  destruct (fetch_pages_answered up (manager_count config) rs
              (map Z.of_nat (seq 1 (Z.to_nat ((manager_count config + 49) / 50)))) [] Hmc)
    as (r & Hr & Hf).
  { intros p Hp. apply in_map_iff in Hp as (k & <- & Hk). apply in_seq in Hk. apply Hall. lia. }
  rewrite Hr. f_equal. rewrite py_slice_nonneg by lia. exact Hf.
Qed.

Lemma fetch_top_managers_first_rows_witness :
  0 <= manager_count cohort60 /\
  fetch_top_managers two_pages cohort60 =
    Ok (firstn 60 (flat_map page_rows (map Z.of_nat (seq 1 2)))).
Proof.
  split; [simpl; lia|].
  apply (fetch_top_managers_first_rows two_pages cohort60 page_rows); [simpl; lia|].
  intros p Hp. change ((manager_count cohort60 + 49) / 50) with 2 in Hp. simpl.
  destruct (Z.leb_spec 1 p), (Z.leb_spec p 2); simpl; [reflexivity|lia..].
Defined.

(** X2: when page 1 already holds at least [manager_count] rows, [fetch_top_managers] returns the first [manager_count] rows of page 1 and asks for no other page. *)
Theorem fetch_top_managers_full_first_page up config rows :
  up_standings up 1 = Some rows ->
  manager_count config <= Z.of_nat (length rows) ->
  fetch_top_managers up config = Ok (firstn (Z.to_nat (manager_count config)) rows).
Proof.
  intros H1 Hle. unfold fetch_top_managers. set (mc := manager_count config) in *.
  destruct (Z.leb_spec mc 0) as [Hneg|Hpos].
  - rewrite pages_none by lia. simpl. unfold py_slice_upto.
    replace (Z.to_nat mc) with 0%nat by lia. by destruct (0 <=? mc); rewrite firstn_nil.
  - assert (Hn : exists n, Z.to_nat ((mc + 49) / 50) = S n).
    { exists (Z.to_nat ((mc + 49) / 50) - 1)%nat.
      assert (1 <= (mc + 49) / 50) by (apply Z.div_le_lower_bound; lia). lia. }
    destruct Hn as [n ->]. simpl. change (Z.of_nat 1) with 1. rewrite H1.
    rewrite (proj2 (Z.leb_le _ _) Hle). rewrite py_slice_nonneg by lia. reflexivity.
Qed.

Lemma fetch_top_managers_full_first_page_witness :
  up_standings four_managers 1 = Some [standing 1 50; standing 2 60; standing 3 70; standing 4 80] /\
  fetch_top_managers four_managers cohort4 =
    Ok [standing 1 50; standing 2 60; standing 3 70; standing 4 80].
Proof.
  split; [reflexivity|].
  rewrite (fetch_top_managers_full_first_page four_managers cohort4
             [standing 1 50; standing 2 60; standing 3 70; standing 4 80]);
    [reflexivity|reflexivity|simpl; lia].
Defined.



(** X4: when the first unanswered standings page is reached while fewer than [manager_count] rows have been collected, the sync of a gameweek fails with [StandingsRequestFailed] and leaves the store unchanged. *)
Theorem sync_fails_at_unanswered_page gw config up s (rs : Z -> list StandingRow) p :
  1 <= p <= (manager_count config + 49) / 50 ->
  (forall q, 1 <= q < p -> up_standings up q = Some (rs q)) ->
  Z.of_nat (length (flat_map rs (map Z.of_nat (seq 1 (Z.to_nat p - 1))))) < manager_count config ->
  up_standings up p = None ->
  sync_top100_for_gameweek gw config up s = (Err StandingsRequestFailed, s).
Proof.
  intros Hp Hpre Hlen Hnone.
  set (N := Z.to_nat ((manager_count config + 49) / 50)).
  assert (Hseq : map Z.of_nat (seq 1 N) =
                 map Z.of_nat (seq 1 (Z.to_nat p - 1)) ++ p :: map Z.of_nat (seq (S (Z.to_nat p)) (N - Z.to_nat p))).
  { replace N with ((Z.to_nat p - 1) + S (N - Z.to_nat p))%nat at 1 by lia.
    rewrite seq_app, map_app. f_equal. replace (1 + (Z.to_nat p - 1))%nat with (Z.to_nat p) by lia.
    simpl. f_equal. lia. }
  assert (Hf : fetch_top_managers up config = Err StandingsRequestFailed).
  { unfold fetch_top_managers. change (map (fun k : nat => Z.of_nat k)) with (map Z.of_nat). fold N.
    rewrite Hseq, (fetch_pages_fails up _ rs); [reflexivity| | |exact Hnone].
    - intros q Hq. apply in_map_iff in Hq as (k & <- & Hk). apply in_seq in Hk. apply Hpre. lia.
    - exact Hlen. }
  unfold sync_top100_for_gameweek, atomic, sync_body. cbv [mbind M_bind lift_res].
  rewrite Hf. reflexivity.
Qed.

Lemma sync_fails_at_unanswered_page_witness :
  sync_top100_for_gameweek 5 cohort60 page1_only store0 = (Err StandingsRequestFailed, store0).
Proof.
  apply (sync_fails_at_unanswered_page 5 cohort60 page1_only store0 page_rows 2).
  - change ((manager_count cohort60 + 49) / 50) with 2. lia.
  - intros q Hq. assert (q = 1) as -> by lia. reflexivity.
  - vm_compute. reflexivity.
  - reflexivity.
Defined.

End FetchProofs.

Module FrameProofs.
Import Top100 PassMeasures ExtraMeasures.

Lemma gets_bind_run {A B} (f : Store -> A) (k : A -> M B) s : (gets f ≫= k) s = k (f s) s.
Proof. reflexivity. Qed.

Lemma modify_bind_run {B} (f : Store -> Store) (k : unit -> M B) s :
  (modify f ≫= k) s = k tt (f s).
Proof. reflexivity. Qed.

Lemma pass_frame_refl gw E s : pass_frame gw E s s.
Proof. repeat split; auto. Qed.

Lemma pass_frame_trans gw E s1 s2 s3 :
  pass_frame gw E s1 s2 -> pass_frame gw E s2 s3 -> pass_frame gw E s1 s3.
Proof.
  intros (A1 & S1 & M1 & P1 & K1 & T1 & W1) (A2 & S2 & M2 & P2 & K2 & T2 & W2).
  split; [congruence|]. split; [intros g Hg; by rewrite S2, S1|].
  split; [intros e g Hg; by rewrite M2, M1|]. split; [auto|].
  split; [intros e g a Ha; rewrite K2; [apply K1; exact Ha|rewrite A1; exact Ha]|].
  split; [auto|].
  intros e g g2 i o H. rewrite W2; [apply W1; exact H|rewrite A1; exact H].
Qed.

Local Ltac pf_split := refine (conj _ (conj _ (conj _ (conj _ (conj _ (conj _ _)))))).

Lemma pf_upsert_manager gw (E : Z -> Prop) e md rank s :
  E e -> pass_frame gw E s (upsert_manager (e, gw) md rank s).
Proof.
  intros He. unfold upsert_manager, set_managers. cbn beta.
  destruct (managers s !! (e, gw)) as [r|]; pf_split; cbn [athletes summaries managers picks transfers];
    try done.
  all: try (intros e' g Hg; rewrite lookup_insert_ne; [done|]; intros [= -> ->];
            destruct Hg as [Hg|Hg]; auto).
  all: intros k Hk; destruct (decide (k = (e, gw))) as [->|Hne];
         [rewrite lookup_insert_eq; eauto|rewrite lookup_insert_ne; auto].
Qed.

Lemma pf_alter gw (E : Z -> Prop) e (f : ManagerRow -> ManagerRow) s :
  E e -> pass_frame gw E s (set_managers (alter f (e, gw)) s).
Proof.
  intros He. unfold set_managers. pf_split; cbn [athletes summaries managers picks transfers]; try done.
  - intros e' g Hg. rewrite lookup_alter_ne; [done|]. intros [= -> ->].
    destruct Hg as [Hg|Hg]; auto.
  - intros k [x Hx]. rewrite lookup_alter. destruct (decide _) as [<-|]; rewrite Hx; simpl; eexists; reflexivity.
Qed.

Lemma pf_save_chip gw (E : Z -> Prop) e chip s :
  E e -> pass_frame gw E s (save_chip (e, gw) chip s).
Proof. apply pf_alter. Qed.

Lemma pf_save_bank gw (E : Z -> Prop) e bank value s :
  E e -> pass_frame gw E s (save_bank (e, gw) bank value s).
Proof. apply pf_alter. Qed.

Lemma pf_upsert_pick gw (E : Z -> Prop) e a p s :
  E e -> a ∈ athletes s -> pass_frame gw E s (upsert_pick (e, gw) a gw p s).
Proof.
  intros He Ha. unfold upsert_pick, set_picks.
  pf_split; cbn [athletes summaries managers picks transfers]; try done.
  intros e' g a' H. rewrite lookup_insert_ne; [done|]. intros [= -> -> ->].
  destruct H as [H|[H|H]]; auto.
Qed.

Lemma pf_get_or_create_transfer gw (E : Z -> Prop) e i o t s :
  E e -> i ∈ athletes s -> o ∈ athletes s ->
  pass_frame gw E s (get_or_create_transfer (e, gw, gw, i, o) t s).
Proof.
  intros He Hi Ho. unfold get_or_create_transfer, set_transfers. cbn beta.
  destruct (transfers s !! (e, gw, gw, i, o)) as [x|] eqn:Ex;
    pf_split; cbn [athletes summaries managers picks transfers]; try done.
  - intros k t' Hk. destruct (decide (k = (e, gw, gw, i, o))) as [->|Hne]; [congruence|].
    by rewrite lookup_insert_ne.
  - intros e' g g2 i' o' H. rewrite lookup_insert_ne; [done|]. intros [= -> -> -> -> ->].
    destruct H as [H|[H|[H|[H|H]]]]; auto.
Qed.

Lemma pf_summary gw (E : Z -> Prop) row s :
  pass_frame gw E s (set_summaries (<[gw := row]>) s).
Proof.
  unfold set_summaries. pf_split; cbn [athletes summaries managers picks transfers]; try done.
  intros g Hg. by rewrite lookup_insert_ne.
Qed.

Section Keeps.
Context (gw : Z) (E : Z -> Prop).

Lemma pf_bind {A B} (m : M A) (k : A -> M B) :
  keeps (pass_frame gw E) m -> (forall a, keeps (pass_frame gw E) (k a)) ->
  keeps (pass_frame gw E) (m ≫= k).
Proof.
  intros Hm Hk s. specialize (Hm s). cbv [mbind M_bind].
  destruct (m s) as [[a|e'] s1]; simpl in *; [|exact Hm].
  eapply pass_frame_trans; [exact Hm|apply Hk].
Qed.

Lemma pf_ret {A} (a : A) : keeps (pass_frame gw E) (mret a).
Proof. intros s. apply pass_frame_refl. Qed.

Lemma pf_raise {A} e : keeps (pass_frame gw E) (@raise A e).
Proof. intros s. apply pass_frame_refl. Qed.

Lemma pf_lift {A} (r : res A) : keeps (pass_frame gw E) (lift_res r).
Proof. intros s. apply pass_frame_refl. Qed.

Lemma pf_modify f : (forall s, pass_frame gw E s (f s)) -> keeps (pass_frame gw E) (modify f).
Proof. intros Hf s. apply Hf. Qed.

Lemma pf_gets_bind {A B} (f : Store -> A) (k : A -> M B) :
  (forall s, pass_frame gw E s (snd (k (f s) s))) -> keeps (pass_frame gw E) (gets f ≫= k).
Proof. intros H s. apply H. Qed.

Lemma pf_modify_bind_at {B} f (k : unit -> M B) s :
  pass_frame gw E s (f s) -> keeps (pass_frame gw E) (k tt) ->
  pass_frame gw E s (snd ((modify f ≫= k) s)).
Proof. intros Hf Hk. rewrite modify_bind_run. eapply pass_frame_trans; [exact Hf|apply Hk]. Qed.

Lemma pf_atomic {A} (m : M A) : keeps (pass_frame gw E) m -> keeps (pass_frame gw E) (atomic m).
Proof.
  intros Hm s. specialize (Hm s). unfold atomic.
  destruct (m s) as [[a|e'] s1]; simpl in *; [exact Hm|apply pass_frame_refl].
Qed.

End Keeps.

Lemma pf_process_picks gw (E : Z -> Prop) e ps acc :
  E e -> keeps (pass_frame gw E) (process_picks gw (e, gw) ps acc).
Proof.
  intros He. revert acc. induction ps as [|p ps IH]; intros acc; simpl; [apply pf_ret|].
  apply pf_gets_bind. intros s. cbn beta. unfold athlete_exists.
  destruct (pk_element p) as [a|]; [|apply IH].
  case_bool_decide as Ha; [|apply IH].
  apply pf_modify_bind_at; [by apply pf_upsert_pick|apply IH].
Qed.

Lemma pf_process_picks_data gw (E : Z -> Prop) e pd acc :
  E e -> keeps (pass_frame gw E) (process_picks_data gw (e, gw) pd acc).
Proof.
  intros He. unfold process_picks_data.
  apply pf_bind; [|intros acc'; apply pf_bind; [|intros _; by apply pf_process_picks]].
  - destruct (pd_active_chip pd) as [c|]; [|apply pf_ret].
    destruct (decide (c = EmptyString)); [apply pf_ret|].
    apply pf_bind; [apply pf_modify; intros s; by apply pf_save_chip|intros _; apply pf_ret].
  - destruct (pd_entry_history pd) as [[b v]|]; [|apply pf_ret].
    apply pf_modify. intros s. by apply pf_save_bank.
Qed.

Lemma pf_process_transfers gw (E : Z -> Prop) e ts acc :
  E e -> keeps (pass_frame gw E) (process_transfers gw (e, gw) ts acc).
Proof.
  intros He. revert acc. induction ts as [|t ts IH]; intros acc; simpl; [apply pf_ret|].
  apply pf_gets_bind. intros s. cbn beta. rewrite gets_bind_run.
  destruct (athlete_exists (tf_element_in t) s) eqn:Ein,
    (athlete_exists (tf_element_out t) s) eqn:Eout; try apply IH.
  unfold athlete_exists in Ein, Eout.
  destruct (tf_element_in t) as [i|]; [|discriminate].
  destruct (tf_element_out t) as [o|]; [|discriminate].
  apply bool_decide_eq_true in Ein, Eout.
  apply pf_modify_bind_at; [by apply pf_get_or_create_transfer|apply IH].
Qed.

Lemma pf_process_manager up gw (E : Z -> Prop) idx md acc :
  (forall e, sr_entry md = Some e -> E e) ->
  keeps (pass_frame gw E) (process_manager up gw idx md acc).
Proof.
  intros HE. unfold process_manager.
  destruct (sr_entry md) as [e|] eqn:Hmd; [|apply pf_raise].
  specialize (HE e eq_refl).
  apply pf_bind; [apply pf_modify; intros s; by apply pf_upsert_manager|intros _].
  apply pf_bind; [|intros acc'; by apply pf_process_transfers].
  destruct (up_picks up e) as [pd|]; [by apply pf_process_picks_data|apply pf_ret].
Qed.

Lemma pf_process_managers up gw (E : Z -> Prop) idx mds acc :
  Forall (fun md => forall e, sr_entry md = Some e -> E e) mds ->
  keeps (pass_frame gw E) (process_managers up gw idx mds acc).
Proof.
  intros Hall. revert idx acc. induction Hall as [|md mds Hmd _ IH]; intros idx acc; simpl;
    [apply pf_ret|].
  apply pf_bind; [by apply pf_process_manager|intros acc'; apply IH].
Qed.

Lemma lift_ok_bind_run {A B} (a : A) (k : A -> M B) s : (lift_res (Ok a) ≫= k) s = k a s.
Proof. reflexivity. Qed.

(** A pass changes the store only as [pass_frame] allows, for the
    managers of the cohort it fetched. *)
Lemma pf_sync gw config up mds :
  fetch_top_managers up config = Ok mds ->
  keeps (pass_frame gw (in_cohort mds)) (sync_top100_for_gameweek gw config up).
Proof.
  intros Hf. unfold sync_top100_for_gameweek. apply pf_atomic. intros s.
  unfold sync_body. rewrite Hf, lift_ok_bind_run. revert s.
  apply pf_bind.
  - apply pf_process_managers. apply List.Forall_forall. intros md Hmd e He.
    unfold in_cohort. rewrite <- He. by apply in_map.
  - intros acc. unfold compute_summary.
    apply pf_bind; [apply pf_modify; intros s; apply pf_summary|intros _; apply pf_ret].
Qed.

(** When the standings fail, the pass changes nothing. *)
Lemma sync_fetch_err gw config up e s :
  fetch_top_managers up config = Err e -> sync_top100_for_gameweek gw config up s = (Err e, s).
Proof.
  intros Hf. unfold sync_top100_for_gameweek, atomic, sync_body. cbv [mbind M_bind lift_res].
  by rewrite Hf.
Qed.

(** Any pass: the frame for some set of managers. *)
Lemma pf_sync_any gw config up s :
  exists E, pass_frame gw E s (snd (sync_top100_for_gameweek gw config up s)).
Proof.
  destruct (fetch_top_managers up config) as [mds|e] eqn:Hf.
  - exists (in_cohort mds). by apply pf_sync.
  - exists (fun _ => False). rewrite (sync_fetch_err _ _ _ _ _ Hf). apply pass_frame_refl.
Qed.


End FrameProofs.

Module StoreEffects.
Import Top100 PassMeasures ExtraMeasures FrameProofs StoreProofs Samples SampleRuns ExtraSamples.

Lemma upsert_present e gw md rank s :
  is_Some (managers (upsert_manager (e, gw) md rank s) !! (e, gw)).
Proof.
  unfold upsert_manager, set_managers. cbn beta.
  destruct (managers s !! (e, gw)); simpl; rewrite lookup_insert_eq; by eexists.
Qed.

Lemma process_manager_present up gw idx md acc e s :
  sr_entry md = Some e ->
  is_Some (managers (snd (process_manager up gw idx md acc s)) !! (e, gw)).
Proof.
  intros He. unfold process_manager. rewrite He, modify_bind_run. cbn beta.
  match goal with |- context [snd (?m ?s1)] =>
    assert (Hk : keeps (pass_frame gw (fun _ => True)) m) end.
  { apply pf_bind; [|intros acc'; by apply pf_process_transfers].
    destruct (up_picks up e) as [pd|]; [by apply pf_process_picks_data|apply pf_ret]. }
  destruct (Hk (upsert_manager (e, gw) md (default (Z.of_nat idx + 1) (sr_rank md)) s))
    as (_ & _ & _ & P & _).
  apply P, upsert_present.
Qed.

Lemma process_managers_present up gw idx mds acc s acc' s' :
  process_managers up gw idx mds acc s = (Ok acc', s') ->
  forall e, in_cohort mds e -> is_Some (managers s' !! (e, gw)).
Proof.
  revert idx acc s. induction mds as [|md mds IH]; intros idx acc s H e He; [destruct He|].
  simpl in H. destruct (bind_ok_inv _ _ _ _ _ H) as (a1 & s1 & H1 & H2).
  destruct He as [He|He].
  - assert (Hall : Forall (fun md => forall e, sr_entry md = Some e -> (fun _ => True) e) mds).
    { apply List.Forall_forall. auto. }
    destruct (pf_process_managers up gw (fun _ => True) (S idx) mds a1 Hall s1)
      as (_ & _ & _ & P & _).
    rewrite H2 in P. apply P. simpl in P.
    pose proof (process_manager_present up gw idx md acc e s He) as Hp.
    by rewrite H1 in Hp.
  - exact (IH _ _ _ H2 e He).
Qed.

Lemma decide_in_cohort mds e : {in_cohort mds e} + {~ in_cohort mds e}.
Proof. apply in_dec. intros x y. apply (decide (x = y)). Qed.

(** X5: the sync of gameweek [gw] leaves the athlete table and, for every other gameweek [g], the summary, manager rows, pick rows and transfer rows of [g] unchanged. *)
Theorem sync_other_gameweeks_untouched gw config up s g :
  g <> gw ->
  let s' := snd (sync_top100_for_gameweek gw config up s) in
  athletes s' = athletes s /\
  summaries s' !! g = summaries s !! g /\
  (forall e, managers s' !! (e, g) = managers s !! (e, g)) /\
  (forall e a, picks s' !! (e, g, a) = picks s !! (e, g, a)) /\
  (forall e g2 i o, transfers s' !! (e, g, g2, i, o) = transfers s !! (e, g, g2, i, o)).
Proof.
  intros Hg. destruct (pf_sync_any gw config up s) as (E & A & S & Mg & _ & P & _ & T).
  split; [exact A|]. split; [by apply S|]. split; [intros e; apply Mg; by left|].
  split; [intros e a; apply P; by left|]. intros e g2 i o. apply T. by left.
Qed.

Lemma sync_other_gameweeks_untouched_witness :
  athletes (snd (sync_top100_for_gameweek 5 cohort4 four_managers store_transfer)) =
    athletes store_transfer /\
  summaries (snd (sync_top100_for_gameweek 5 cohort4 four_managers store_transfer)) !! 4 =
    summaries store_transfer !! 4.
Proof.
  destruct (sync_other_gameweeks_untouched 5 cohort4 four_managers store_transfer 4)
    as (H1 & H2 & _); [lia|]. split; [exact H1|exact H2].
Defined.

(** X6: the sync of a gameweek never changes or deletes a transfer row already stored. *)
Theorem sync_keeps_existing_transfers gw config up s k t :
  transfers s !! k = Some t ->
  transfers (snd (sync_top100_for_gameweek gw config up s)) !! k = Some t.
Proof.
  intros Hk. destruct (pf_sync_any gw config up s) as (E & _ & _ & _ & _ & _ & T & _).
  by apply T.
Qed.

Lemma sync_keeps_existing_transfers_witness :
  transfers (snd (sync_top100_for_gameweek 5 cohort4 four_managers store_transfer)) !! (1, 5, 5, 7, 9) =
    Some {| tr_element_in_cost := 50; tr_element_out_cost := 65; tr_transfer_time := None |}.
Proof. apply sync_keeps_existing_transfers. reflexivity. Defined.

(** X7: after fetching managers [mds], the sync changes only manager rows of gameweek [gw] for entries in [mds], deletes none, and when it succeeds every entry of [mds] has a manager row at [gw]. *)
Theorem sync_manager_rows gw config up s mds :
  fetch_top_managers up config = Ok mds ->
  let s' := snd (sync_top100_for_gameweek gw config up s) in
  (forall e g, managers s' !! (e, g) <> managers s !! (e, g) -> g = gw /\ in_cohort mds e) /\
  (forall k, is_Some (managers s !! k) -> is_Some (managers s' !! k)) /\
  (forall row, fst (sync_top100_for_gameweek gw config up s) = Ok row ->
     forall e, in_cohort mds e -> is_Some (managers s' !! (e, gw))).
Proof.
  intros Hf. destruct (pf_sync gw config up mds Hf s) as (_ & _ & Mg & Pr & _).
  split; [|split; [exact Pr|]].
  - intros e g Hne. destruct (decide (g = gw)) as [->|Hg]; [|contradict Hne; apply Mg; by left].
    split; [done|]. destruct (decide_in_cohort mds e) as [Hc|Hc]; [done|].
    contradict Hne. apply Mg. by right.
  - intros row Hok e He.
    destruct (sync_ok_commit _ _ _ _ _ Hok) as [-> _].
    destruct (sync_body gw config up s) as [r s'] eqn:Hb. simpl.
    assert (r = Ok row).
    { unfold sync_top100_for_gameweek, atomic in Hok. rewrite Hb in Hok.
      destruct r; simpl in Hok; congruence. }
    subst r. unfold sync_body in Hb. rewrite Hf, lift_ok_bind_run in Hb.
    destruct (bind_ok_inv _ _ _ _ _ Hb) as (acc & s1 & H1 & H2).
    unfold compute_summary in H2. cbv [mbind M_bind modify mret M_ret] in H2.
    injection H2 as _ <-. simpl.
    exact (process_managers_present _ _ _ _ _ _ _ _ H1 e He).
Qed.

Lemma sync_manager_rows_witness :
  is_Some (managers (snd (sync_top100_for_gameweek 5 cohort4 four_managers store0)) !! (3, 5)).
Proof.
  destruct (sync_manager_rows 5 cohort4 four_managers store0
              [standing 1 50; standing 2 60; standing 3 70; standing 4 80]) as (_ & _ & H);
    [vm_compute; reflexivity|].
  apply (H row4); [vm_compute; reflexivity|]. unfold in_cohort; cbn; tauto.
Defined.

(** X8: after fetching managers [mds], every pick row or transfer row the sync changes is of gameweek [gw], of an entry in [mds], and names athletes of the athlete table only. *)
Theorem sync_writes_name_table_athletes gw config up s mds :
  fetch_top_managers up config = Ok mds ->
  let s' := snd (sync_top100_for_gameweek gw config up s) in
  (forall e g a, picks s' !! (e, g, a) <> picks s !! (e, g, a) ->
     g = gw /\ in_cohort mds e /\ a ∈ athletes s) /\
  (forall e g g2 i o, transfers s' !! (e, g, g2, i, o) <> transfers s !! (e, g, g2, i, o) ->
     g = gw /\ g2 = gw /\ in_cohort mds e /\ i ∈ athletes s /\ o ∈ athletes s).
Proof.
  intros Hf. destruct (pf_sync gw config up mds Hf s) as (_ & _ & _ & _ & P & _ & T).
  split.
  - intros e g a Hne.
    destruct (decide (g = gw)) as [->|Hg]; [|contradict Hne; apply P; by left].
    destruct (decide_in_cohort mds e) as [Hc|Hc]; [|contradict Hne; apply P; by right; left].
    destruct (decide (a ∈ athletes s)) as [Ha|Ha]; [done|].
    contradict Hne. apply P. by right; right.
  - intros e g g2 i o Hne.
    destruct (decide (g = gw)) as [->|Hg]; [|contradict Hne; apply T; by left].
    destruct (decide (g2 = gw)) as [->|Hg2]; [|contradict Hne; apply T; by right; left].
    destruct (decide_in_cohort mds e) as [Hc|Hc];
      [|contradict Hne; apply T; by right; right; left].
    destruct (decide (i ∈ athletes s)) as [Hi|Hi];
      [|contradict Hne; apply T; by right; right; right; left].
    destruct (decide (o ∈ athletes s)) as [Ho|Ho]; [done|].
    contradict Hne. apply T. by right; right; right; right.
Qed.

Lemma sync_writes_name_table_athletes_witness :
  picks (snd (sync_top100_for_gameweek 5 cohort4 four_managers store0)) !! (1, 5, 42) = None /\
  transfers (snd (sync_top100_for_gameweek 5 cohort4 four_managers store0)) !! (1, 5, 5, 7, 42) =
    None.
Proof.
  destruct (sync_writes_name_table_athletes 5 cohort4 four_managers store0
              [standing 1 50; standing 2 60; standing 3 70; standing 4 80]) as [P T];
    [vm_compute; reflexivity|].
  assert (Hn : bool_decide (42 ∈ athletes store0) = false) by (vm_compute; reflexivity).
  apply bool_decide_eq_false in Hn.
  split.
  - destruct (picks (snd (sync_top100_for_gameweek 5 cohort4 four_managers store0)) !! (1, 5, 42))
      eqn:E; [|reflexivity].
    exfalso. destruct (P 1 5 42) as (_ & _ & Ha); [rewrite E; discriminate|]. contradiction.
  - destruct (transfers (snd (sync_top100_for_gameweek 5 cohort4 four_managers store0))
               !! (1, 5, 5, 7, 42)) eqn:E; [|reflexivity].
    exfalso. destruct (T 1 5 5 7 42) as (_ & _ & _ & _ & Ha); [rewrite E; discriminate|].
    contradiction.
Defined.

End StoreEffects.


Module SummaryProofs.
Import Top100 PassMeasures AccProofs StoreProofs CounterProofs PassFacts ExtraDefs Samples SampleRuns ExtraSamples.









Lemma insert_desc_sorted x l : Sorted desc l -> Sorted desc (insert_desc x l).
Proof.
  induction l as [|y l IH]; simpl; intros Hs; [by repeat constructor|].
  destruct (snd x <=? snd y) eqn:E.
  - apply Sorted_inv in Hs as [Hl Hh]. constructor; [by apply IH|].
    destruct l as [|z l]; simpl.
    + constructor. unfold desc. apply Z.leb_le in E. lia.
    + apply HdRel_inv in Hh. destruct (snd x <=? snd z) eqn:E2; constructor; unfold desc in *.
      * exact Hh.
      * apply Z.leb_le in E. lia.
  - constructor; [exact Hs|]. constructor. unfold desc. apply Z.leb_gt in E. lia.
Qed.

Lemma insert_desc_perm (x : Z * Z) l : Permutation (insert_desc x l) (x :: l).
Proof.
  induction l as [|y l IH]; simpl; [done|].
  destruct (snd x <=? snd y); [|done].
  rewrite IH. apply perm_swap.
Qed.

Lemma fold_insert_desc c acc :
  Sorted desc acc ->
  Sorted desc (fold_left (fun acc x => insert_desc x acc) c acc) /\
  Permutation (fold_left (fun acc x => insert_desc x acc) c acc) (c ++ acc).
Proof.
  revert acc. induction c as [|x c IH]; intros acc Hs; simpl; [done|].
  destruct (IH (insert_desc x acc) (insert_desc_sorted x acc Hs)) as [H1 H2].
  split; [exact H1|]. rewrite H2, insert_desc_perm. symmetry. apply Permutation_middle.
Qed.

Lemma sorted_firstn {A} (R : A -> A -> Prop) n l : Sorted R l -> Sorted R (firstn n l).
Proof.
  revert n. induction l as [|x l IH]; intros [|n] Hs; simpl; [constructor..|].
  apply Sorted_inv in Hs as [Hl Hh]. constructor; [by apply IH|].
  destruct l as [|y l]; destruct n; simpl; constructor. by apply HdRel_inv in Hh.
Qed.

Lemma nodup_firstn {A} n (l : list A) : NoDup l -> NoDup (firstn n l).
Proof.
  revert n. induction l as [|x l IH]; intros [|n] Hd; simpl; [constructor..|].
  apply NoDup_cons in Hd as [Hx Hl]. apply NoDup_cons. split; [|by apply IH].
  intros Hin. apply Hx. apply list_elem_of_In in Hin. apply list_elem_of_In.
  rewrite <- (firstn_skipn n l). apply in_or_app. by left.
Qed.

Lemma most_common_ranked n c : NoDup (map fst c) -> ranked n (most_common n c).
Proof.
  intros Hd. unfold most_common, ranked.
  destruct (fold_insert_desc c [] (Sorted_nil _)) as [Hs Hp].
  rewrite app_nil_r in Hp.
  split; [apply firstn_le_length|]. split; [|by apply sorted_firstn].
  rewrite <- firstn_map. apply nodup_firstn.
  by rewrite (Permutation_map fst Hp).
Qed.

Lemma counter_of_nodup (l : list Z) : NoDup (map fst (counter_of l)).
Proof.
  induction l as [|k l IH] using rev_ind; [constructor|].
  rewrite counter_of_snoc. by apply counter_incr_nodup.
Qed.

Lemma fold_counter_map (f : Z * Z -> Z) (l : list (Z * Z)) :
  fold_left (fun c t => counter_incr (f t) c) l [] = counter_of (map f l).
Proof.
  unfold counter_of. generalize (@nil (Z * Z)).
  induction l as [|t l IH]; intros c; simpl; [done|]. apply IH.
Qed.

(** X10: every ranking list of the summary of a successful sync (template team, template squad, most captained, most transferred in and out) has at most 11, 22, 5, 10 and 10 entries, distinct athletes and counts that do not increase. *)
Theorem summary_lists_ranked gw config up s row :
  fst (sync_top100_for_gameweek gw config up s) = Ok row ->
  let mc := manager_count config in
  (exists c, sm_template_team row = map (pct_entry mc) c /\ ranked 11 c) /\
  (exists c, sm_template_squad row = map (pct_entry mc) c /\ ranked 22 c) /\
  (exists c, sm_most_captained row = map (pct_entry mc) c /\ ranked 5 c) /\
  (exists c, sm_most_transferred_in row = map count_entry c /\ ranked 10 c) /\
  (exists c, sm_most_transferred_out row = map count_entry c /\ ranked 10 c).
Proof.
  intros Hok mc.
  destruct (sync_ok_pass _ _ _ _ _ Hok) as (mds & acc & _ & Hm & ->).
  destruct (managers_pure_acc _ _ _ _ _ _ Hm) as (_ & _ & _ & Hc).
  specialize (Hc captain_inv_acc0). unfold captain_inv in Hc.
  destruct (summary_of_fields gw config acc) as (T & Q & C & I & O & _).
  rewrite T, Q, C, I, O, !fold_counter_map, Hc.
  repeat split; eexists; (split; [reflexivity|]); apply most_common_ranked, counter_of_nodup.
Qed.

Lemma summary_lists_ranked_witness :
  exists c, sm_template_team row4 = map (pct_entry 4) c /\ ranked 11 c.
Proof.
  destruct (summary_lists_ranked 5 cohort4 four_managers store0 row4) as [H _];
    [vm_compute; reflexivity|]. exact H.
Defined.

End SummaryProofs.

Module RangeProofs.
Import Top100 PassMeasures ExtraMeasures StoreProofs PassFacts FrameProofs SummaryProofs Samples ExtraSamples.

Lemma summary_game_week gw config acc : sm_game_week (summary_of gw config acc) = gw.
Proof. unfold summary_of. by destruct (ownership_counts _). Qed.

Lemma sync_ok_game_week gw config up s row :
  fst (sync_top100_for_gameweek gw config up s) = Ok row -> sm_game_week row = gw.
Proof.
  intros Hok. destruct (sync_ok_pass _ _ _ _ _ Hok) as (mds & acc & _ & _ & ->).
  apply summary_game_week.
Qed.

Lemma sync_gameweeks_cons_run gw gws config up s :
  sync_gameweeks (gw :: gws) config up s =
  match sync_top100_for_gameweek gw config (up gw) s with
  | (Ok r, s1) => match sync_gameweeks gws config up s1 with
                  | (Ok rest, s2) => (Ok (r :: rest), s2)
                  | (Err e, s2) => (Err e, s2)
                  end
  | (Err e, s1) => (Err e, s1)
  end.
Proof.
  change (sync_gameweeks (gw :: gws) config up s) with
    ((summary ← sync_top100_for_gameweek gw config (up gw);
      rest' ← sync_gameweeks gws config up; mret (summary :: rest')) s).
  cbv [mbind M_bind mret M_ret].
  destruct (sync_top100_for_gameweek gw config (up gw) s) as [[r|e] s1]; [|done].
  by destruct (sync_gameweeks gws config up s1) as [[rest|e] s2].
Qed.

Lemma sync_gameweeks_ok gws config up s rows :
  fst (sync_gameweeks gws config up s) = Ok rows -> NoDup gws ->
  Forall2 (fun gw row => sm_game_week row = gw /\
             summaries (snd (sync_gameweeks gws config up s)) !! gw = Some row) gws rows /\
  (forall g, g ∉ gws -> summaries (snd (sync_gameweeks gws config up s)) !! g = summaries s !! g).
Proof.
  revert s rows. induction gws as [|gw gws IH]; intros s rows Hok Hnd.
  { simpl in Hok. injection Hok as <-. split; [constructor|done]. }
  rewrite sync_gameweeks_cons_run in *.
  destruct (sync_top100_for_gameweek gw config (up gw) s) as [[r|e] s1] eqn:E1; [|discriminate].
  destruct (sync_gameweeks gws config up s1) as [[rest|e] s2] eqn:E2; [|discriminate].
  simpl in Hok |- *. injection Hok as <-.
  apply NoDup_cons in Hnd as [Hgw Hnd].
  assert (Hr : fst (sync_top100_for_gameweek gw config (up gw) s) = Ok r) by by rewrite E1.
  destruct (sync_ok_commit _ _ _ _ _ Hr) as [_ Hst]. rewrite E1 in Hst. simpl in Hst.
  destruct (pf_sync_any gw config (up gw) s) as (E & _ & Hsum & _). rewrite E1 in Hsum.
  simpl in Hsum.
  destruct (IH s1 rest) as [HF Hfr]; [by rewrite E2|exact Hnd|].
  rewrite E2 in HF, Hfr. simpl in HF, Hfr.
  split.
  - constructor; [|exact HF]. split; [exact (sync_ok_game_week _ _ _ _ _ Hr)|].
    by rewrite Hfr.
  - intros g Hg. apply not_elem_of_cons in Hg as [Hg1 Hg2].
    rewrite Hfr by exact Hg2. by apply Hsum.
Qed.

Lemma py_range_incl_nodup start_gw end_gw : NoDup (py_range_incl start_gw end_gw).
Proof.
  unfold py_range_incl. apply NoDup_fmap_2; [intros x y ?; lia|]. apply NoDup_seq.
Qed.

Lemma py_range_incl_lookup start_gw end_gw i :
  (i < Z.to_nat (end_gw + 1 - start_gw))%nat ->
  py_range_incl start_gw end_gw !! i = Some (start_gw + Z.of_nat i).
Proof.
  intros Hi. unfold py_range_incl. rewrite list_lookup_fmap, lookup_seq_lt by exact Hi.
  done.
Qed.

Lemma py_range_incl_elem start_gw end_gw g :
  g ∈ py_range_incl start_gw end_gw -> start_gw <= g <= end_gw.
Proof.
  unfold py_range_incl. intros Hg. apply list_elem_of_fmap in Hg as (k & -> & Hk).
  apply list_elem_of_In, in_seq in Hk. lia.
Qed.

(** X11: a range run whose end gameweek precedes its start gameweek syncs no gameweek, produces no summary and leaves the store unchanged. *)
Theorem range_empty_when_end_before_start start_gw end_gw config up s :
  end_gw < start_gw -> handle_range start_gw end_gw config up s = (Ok [], s).
Proof.
  intros Hlt. unfold handle_range, py_range_incl.
  replace (Z.to_nat (end_gw + 1 - start_gw)) with 0%nat by lia. reflexivity.
Qed.

Lemma range_empty_when_end_before_start_witness :
  handle_range 5 3 cohort4 flaky_standings store0 = (Ok [], store0).
Proof. apply range_empty_when_end_before_start. lia. Defined.

(** X12: a range run that succeeds syncs each gameweek from start to end once, in order: it produces one summary per gameweek, the i-th of gameweek [start_gw + i] and stored there, and leaves the summaries of gameweeks outside the range unchanged. *)
Theorem range_rows_per_gameweek start_gw end_gw config up s rows :
  fst (handle_range start_gw end_gw config up s) = Ok rows ->
  length rows = Z.to_nat (end_gw + 1 - start_gw) /\
  (forall i row, rows !! i = Some row ->
     sm_game_week row = start_gw + Z.of_nat i /\
     summaries (snd (handle_range start_gw end_gw config up s)) !! (start_gw + Z.of_nat i) =
       Some row) /\
  (forall g, g < start_gw \/ end_gw < g ->
     summaries (snd (handle_range start_gw end_gw config up s)) !! g = summaries s !! g).
Proof.
  intros Hok. unfold handle_range in *.
  destruct (sync_gameweeks_ok _ _ _ _ _ Hok (py_range_incl_nodup start_gw end_gw)) as [HF Hfr].
  assert (Hlen : length rows = Z.to_nat (end_gw + 1 - start_gw)).
  { rewrite <- (Forall2_length _ _ _ HF). unfold py_range_incl.
    by rewrite length_map, length_seq. }
  split; [exact Hlen|]. split.
  - intros i row Hi.
    assert (Hlt : (i < Z.to_nat (end_gw + 1 - start_gw))%nat).
    { rewrite <- Hlen. by apply lookup_lt_Some in Hi. }
    pose proof (py_range_incl_lookup _ _ _ Hlt) as Hg.
    destruct (Forall2_lookup_lr _ _ _ _ _ _ HF Hg Hi) as [H1 H2]. by split.
  - intros g Hg. apply Hfr. intros Hin. apply py_range_incl_elem in Hin. lia.
Qed.

Lemma range_rows_per_gameweek_witness :
  length rows23 = 2%nat /\
  summaries (snd (handle_range 2 3 cohort4 flaky_standings store0)) !! 1 = None.
Proof.
  destruct (range_rows_per_gameweek 2 3 cohort4 flaky_standings store0 rows23)
    as (H1 & _ & H3); [vm_compute; reflexivity|].
  split; [exact H1|]. rewrite H3; [reflexivity|lia].
Defined.

End RangeProofs.

Module HandleProofs.
Import Top100 Top100Readers.

(** X13: without a range and a gameweek argument, [handle] stops with the missing-gameweek message when no event is current, and otherwise syncs the id of the first current event (stopping when that id is missing). *)
Theorem handle_detects_first_current_gameweek config up s events :
  ((forall ev, In ev events -> ev_is_current ev = false) ->
   handle None None config (Some events) up s = (NoCurrentGameweek, s)) /\
  (forall pre ev post, events = pre ++ ev :: post ->
   (forall ev', In ev' pre -> ev_is_current ev' = false) -> ev_is_current ev = true ->
   handle None None config (Some events) up s =
     match ev_id ev with
     | Some gw => let '(r, s') := sync_top100_for_gameweek gw config (up gw) s in
                  (SingleDone r, s')
     | None => (NoCurrentGameweek, s)
     end).
Proof.
  split.
  - intros Hnone. unfold handle, get_current_gameweek.
    destruct (List.find ev_is_current events) as [ev|] eqn:Hf; [|done].
    apply find_some in Hf as [Hin Hc]. by rewrite Hnone in Hc.
  - intros pre ev post -> Hpre Hev. unfold handle, get_current_gameweek.
    assert (Hf : List.find ev_is_current (pre ++ ev :: post) = Some ev).
    { induction pre as [|x pre IH]; simpl; [by rewrite Hev|].
      rewrite (Hpre x (or_introl eq_refl)). apply IH. intros ev' Hin. apply Hpre. by right. }
    rewrite Hf. by destruct (ev_id ev).
Qed.

End HandleProofs.

Module ReaderProofs.
Import Top100 Top100Readers ExtraMeasures ExtraSamples.

Lemma nodup_fst_filter {A} (f : Z * A -> bool) l :
  NoDup (map fst l) -> NoDup (map fst (List.filter f l)).
Proof.
  induction l as [|x l IH]; simpl; intros Hd; [done|].
  apply NoDup_cons in Hd as [Hx Hl].
  destruct (f x); simpl; [|by apply IH]. apply NoDup_cons. split; [|by apply IH].
  intros Hin. apply Hx. apply list_elem_of_In in Hin. apply list_elem_of_In.
  apply in_map_iff in Hin as (y & <- & Hy). apply filter_In in Hy as [Hy _].
  by apply in_map.
Qed.

Lemma sorted_le_nodup_lt (l : list (Z * SummaryRow)) :
  Sorted gw_le l -> NoDup (map fst l) -> Sorted Z.lt (map fst l).
Proof.
  induction l as [|x l IH]; simpl; intros Hs Hd; [constructor|].
  apply Sorted_inv in Hs as [Hl Hh]. apply NoDup_cons in Hd as [Hx Hnd].
  constructor; [by apply IH|].
  destruct l as [|y l]; simpl; constructor.
  apply HdRel_inv in Hh. unfold gw_le in Hh.
  assert (x.1 <> y.1). { intros E. apply Hx. rewrite E. simpl. left. }
  lia.
Qed.

Lemma template_summaries_spec start_gw end_gw s :
  (forall g r, In (g, r) (template_summaries start_gw end_gw s) <->
     summaries s !! g = Some r /\ in_window start_gw end_gw g = true) /\
  Sorted Z.lt (map fst (template_summaries start_gw end_gw s)).
Proof.
  unfold template_summaries.
  set (rows := match end_gw with
               | Some e => if e =? 0 then map_to_list (summaries s)
                           else List.filter (fun r => r.1 <=? e) (map_to_list (summaries s))
               | None => map_to_list (summaries s)
               end).
  assert (Hrows : forall g r, In (g, r) rows <->
            summaries s !! g = Some r /\
            match end_gw with Some e => (e =? 0) || (g <=? e) = true | None => True end).
  { intros g r. unfold rows.
    destruct end_gw as [e|]; [destruct (e =? 0) eqn:E0|]; simpl;
      rewrite ?filter_In, <- list_elem_of_In, elem_of_map_to_list; simpl; intuition. }
  assert (Hnd : NoDup (map fst rows)).
  { unfold rows. pose proof (NoDup_fst_map_to_list (summaries s)) as H.
    destruct end_gw as [e|]; [destruct (e =? 0)|]; try exact H. by apply nodup_fst_filter. }
  set (sel := List.filter (fun r => start_gw <=? r.1) rows).
  pose proof (merge_sort_Permutation gw_le sel) as Hp.
  split.
  - intros g r. rewrite <- list_elem_of_In, Hp, list_elem_of_In. unfold sel.
    rewrite filter_In, Hrows. unfold in_window. simpl.
    destruct end_gw as [e|]; rewrite andb_true_iff, Z.leb_le; intuition.
  - apply sorted_le_nodup_lt; [apply Sorted_merge_sort; intros x y; unfold gw_le; lia|].
    rewrite (Permutation_map fst Hp). by apply nodup_fst_filter.
Qed.

(** X14: the template history lists stored summaries only, by strictly increasing gameweek, exactly those in the window, each with the average, highest and lowest points of its row and the template points of its template team. *)
Theorem template_history_rows stat start_gw end_gw s :
  let hist := get_template_team_points_history stat start_gw end_gw s in
  Sorted Z.lt (map tp_game_week hist) /\
  (forall g, In g (map tp_game_week hist) <->
     is_Some (summaries s !! g) /\ in_window start_gw end_gw g = true) /\
  (forall tp, In tp hist -> exists r,
     summaries s !! tp_game_week tp = Some r /\
     tp_template_points tp = template_points stat (tp_game_week tp) (sm_template_team r) /\
     tp_average_points tp = sm_average_points r /\
     tp_highest_points tp = sm_highest_points r /\
     tp_lowest_points tp = sm_lowest_points r).
Proof.
  intros hist. destruct (template_summaries_spec start_gw end_gw s) as [Hin Hs].
  assert (Hg : map tp_game_week hist = map fst (template_summaries start_gw end_gw s)).
  { unfold hist, get_template_team_points_history. rewrite map_map. reflexivity. }
  rewrite Hg. split; [exact Hs|]. split.
  - intros g. rewrite in_map_iff. split.
    + intros ([g' r] & <- & H). apply Hin in H as [H1 H2]. split; [by eexists|exact H2].
    + intros [[r Hr] Hw]. exists (g, r). split; [done|]. by apply Hin.
  - intros tp Htp. unfold hist, get_template_team_points_history in Htp.
    apply in_map_iff in Htp as ([g r] & <- & H). apply Hin in H as [H1 _].
    exists r. simpl. auto.
Qed.

Lemma history_loop_null start_gw end_gw current :
  (exists gw, In gw current /\ hg_event gw = Some JNull) ->
  history_loop start_gw end_gw current = None.
Proof.
  induction current as [|gw rest IH]; simpl; intros (x & Hx & Hn); [done|].
  destruct Hx as [<-|Hx].
  - by rewrite Hn.
  - rewrite IH by eauto.
    destruct (get_or (hg_event gw) (JInt 0)) as [|n]; [done|].
    destruct (n <? start_gw); [done|].
    by destruct (match end_gw with Some e => _ | None => false end).
Qed.

Lemma loop_skip_window start_gw end_gw n :
  (n <? start_gw) || match end_gw with
                     | Some e => negb (e =? 0) && (e <? n)
                     | None => false
                     end = negb (in_window start_gw end_gw n).
Proof.
  unfold in_window. destruct (n <? start_gw) eqn:E1.
  - apply Z.ltb_lt in E1. replace (start_gw <=? n) with false by (symmetry; apply Z.leb_gt; lia).
    done.
  - apply Z.ltb_ge in E1. replace (start_gw <=? n) with true by (symmetry; apply Z.leb_le; lia).
    destruct end_gw as [e|]; [|done]. destruct (e =? 0); [done|]. simpl.
    destruct (e <? n) eqn:E2.
    + apply Z.ltb_lt in E2. replace (n <=? e) with false by (symmetry; apply Z.leb_gt; lia).
      done.
    + apply Z.ltb_ge in E2. replace (n <=? e) with true by (symmetry; apply Z.leb_le; lia).
      done.
Qed.

Lemma history_loop_ok start_gw end_gw current :
  Forall (fun gw => hg_event gw <> Some JNull) current ->
  exists out, history_loop start_gw end_gw current = Some out /\
    map hp_game_week out = List.filter (in_window start_gw end_gw) (map event_num current).
Proof.
  induction 1 as [|gw rest Hgw _ IH]; simpl; [by exists []|].
  destruct IH as (out & -> & Hout).
  destruct (get_or (hg_event gw) (JInt 0)) as [|n] eqn:Ev.
  { unfold get_or in Ev. destruct (hg_event gw) as [[|]|]; simpl in Ev; congruence. }
  assert (Hev : event_num gw = n) by (unfold event_num; by rewrite Ev).
  rewrite Hev. pose proof (loop_skip_window start_gw end_gw n) as Hw.
  destruct (n <? start_gw); simpl in Hw.
  - exists out. split; [done|]. destruct (in_window start_gw end_gw n); [done|exact Hout].
  - destruct (match end_gw with Some e => _ | None => false end).
    + exists out. split; [done|]. destruct (in_window start_gw end_gw n); [done|exact Hout].
    + eexists. split; [reflexivity|].
      destruct (in_window start_gw end_gw n); [|done]. simpl. by rewrite Hout.
Qed.

(** X15: when the history request succeeds and no event of [current] is null, the user history has the gameweeks of [current] that lie in the window, in the order of [current]. *)
Theorem user_history_game_weeks history_of entry_id start_gw end_gw current :
  history_of entry_id = Some (Some current) ->
  Forall (fun gw => hg_event gw <> Some JNull) current ->
  map hp_game_week (get_user_team_points_history history_of entry_id start_gw end_gw) =
    List.filter (in_window start_gw end_gw) (map event_num current).
Proof.
  intros Hh Hall. unfold get_user_team_points_history. rewrite Hh. simpl.
  destruct (history_loop_ok start_gw end_gw current Hall) as (out & -> & Hout). exact Hout.
Qed.

Lemma user_history_game_weeks_witness :
  map hp_game_week (get_user_team_points_history history_sample 7 2 (Some 3)) = [2; 3].
Proof.
  rewrite (user_history_game_weeks history_sample 7 2 (Some 3)
             [hist_row (Some (JInt 1)) 50; hist_row (Some (JInt 2)) 60;
              hist_row (Some (JInt 3)) 70; hist_row None 0]); [reflexivity|reflexivity|].
  repeat constructor; discriminate.
Defined.

(** X16: the user history is empty when the request fails, when the payload has no [current] key, or when some event of [current] is null. *)
Theorem user_history_failures_empty history_of entry_id start_gw end_gw :
  (history_of entry_id = None ->
   get_user_team_points_history history_of entry_id start_gw end_gw = []) /\
  (history_of entry_id = Some None ->
   get_user_team_points_history history_of entry_id start_gw end_gw = []) /\
  (forall current gw, history_of entry_id = Some (Some current) ->
   In gw current -> hg_event gw = Some JNull ->
   get_user_team_points_history history_of entry_id start_gw end_gw = []).
Proof.
  unfold get_user_team_points_history. split; [|split].
  - by intros ->.
  - by intros ->.
  - intros current gw -> Hin Hn. simpl. rewrite history_loop_null by eauto. done.
Qed.

End ReaderProofs.


Module MappingProofs.
Import TeamMapping PlayerMapping Measures MatchingProofs TeamMappingRun PlayerMappingRun MappingMeasures PlayerSamples ExtraSamples.

Lemma team_match_pos sofa_name teams t :
  0 < snd (fuzzy_match_team sofa_name teams t) ->
  exists id name, fuzzy_match_team sofa_name teams t = (Some id, Some name, team_score sofa_name name) /\
    In (id, name) teams.
Proof.
  rewrite fuzzy_match_team_fold.
  destruct (Selection.fold_first_max (team_candidate_score sofa_name)
              (fun t : Z * string => (Some (fst t), Some (snd t))) teams (None, None))
    as (_ & _ & Hlt).
  destruct (fold_left _ _ _) as [r s]. simpl in *. intros Hp.
  destruct (Hlt Hp) as (pre & [id name] & post & -> & Hfst & Hf & _).
  exists id, name. split.
  - simpl in Hfst. rewrite Hfst, <- Hf. reflexivity.
  - apply in_or_app. right. by left.
Qed.

Lemma team_match_nonpos sofa_name teams t :
  snd (fuzzy_match_team sofa_name teams t) <= 0 -> fuzzy_match_team sofa_name teams t = (None, None, 0).
Proof. apply (fuzzy_match_team_spec sofa_name teams t). Qed.

Lemma team_match_best sofa_name teams t :
  snd (fuzzy_match_team sofa_name teams t) = best_score (team_candidate_score sofa_name) teams.
Proof. apply (fuzzy_match_team_spec sofa_name teams t). Qed.







Lemma fold_map_team_checked fpl l m :
  fold_left (map_team_checked fpl) l (Some m) =
  if existsb (fun t => best_score (team_candidate_score (snd t)) fpl <=? 0) l then None
  else Some (fold_left (map_team fpl) l m).
Proof.
  assert (Hnone : forall l', fold_left (map_team_checked fpl) l' None = None).
  { induction l' as [|x l' IH]; simpl; [done|exact IH]. }
  revert m. induction l as [|[sid sn] l IH]; intros m; simpl; [done|].
  rewrite <- (team_match_best sn fpl 80).
  destruct (Z.leb_spec (snd (fuzzy_match_team sn fpl 80)) 0) as [Hle|Hgt]; simpl.
  - rewrite (team_match_nonpos _ _ _ Hle). apply Hnone.
  - destruct (team_match_pos _ _ _ Hgt) as (id & name & -> & _). apply IH.
Qed.

(** X18: the team mapping run with its progress prints raises exactly when some SofaSport team has no FPL candidate with a positive score; otherwise it returns the mapping. *)
Theorem team_mapping_run_unmatched_name fpl_teams sofa_teams :
  build_team_mapping_run fpl_teams sofa_teams =
  if existsb (fun t => best_score (team_candidate_score (snd t)) fpl_teams <=? 0) sofa_teams
  then None else Some (build_team_mapping fpl_teams sofa_teams).
Proof. apply fold_map_team_checked. Qed.

(** Players *)

Lemma player_match_pos sp ps t :
  0 < snd (fuzzy_match_player sp ps t) ->
  exists p, In p ps /\
    fuzzy_match_player sp ps t = (Some (fp_id p), Some (fp_web_name p), Some (fp_full_name p),
                                  player_score sp p).
Proof.
  rewrite fuzzy_match_player_fold.
  destruct (Selection.fold_first_max (player_score sp)
              (fun p => (Some (fp_id p), Some (fp_web_name p), Some (fp_full_name p)))
              ps (None, None, None)) as (_ & _ & Hlt).
  destruct (fold_left _ _ _) as [r s]. simpl in *. intros Hp.
  destruct (Hlt Hp) as (pre & p & post & -> & Hfst & Hf & _).
  exists p. split; [apply in_or_app; right; by left|]. simpl in Hfst. rewrite Hfst, <- Hf.
  reflexivity.
Qed.

Lemma count_player_map a b fp m x y sp :
  let '(m', x', y') := count_player a b fp (m, x, y) sp in
  m' = map_player a b fp m sp /\ x' + y' = x + y + 1.
Proof.
  unfold count_player, player_mapped, map_player.
  destruct (fuzzy_match_player sp fp 75) as [[[oid w] f] sc].
  destruct oid as [id|]; [|split; [done|lia]].
  destruct (negb (id =? 0) && (75 <=? sc)); (split; [done|lia]).
Qed.

Lemma fold_count_player a b fp sps m x y :
  let '(m', x', y') := fold_left (count_player a b fp) sps (m, x, y) in
  m' = map_team_players a b fp sps m /\ x' + y' = x + y + Z.of_nat (length sps).
Proof.
  unfold map_team_players. revert m x y.
  induction sps as [|sp sps IH]; intros m x y; cbn [fold_left length]; [split; [done|lia]|].
  pose proof (count_player_map a b fp m x y sp) as Hc.
  destruct (count_player a b fp (m, x, y) sp) as [[m1 x1] y1].
  destruct Hc as [-> Hc]. specialize (IH (map_player a b fp m sp) x1 y1).
  destruct (fold_left (count_player a b fp) sps _) as [[m2 x2] y2]. destruct IH as [-> IH].
  split; [done|lia].
Qed.

Lemma fold_teams_count teams db sofa_players_of m x y :
  let '(m', x', y') :=
    fold_left (fun st (t : string * Z) =>
                 fold_left (count_player t.1 t.2 (get_fpl_players_by_team db t.2))
                   (sofa_players_of t.1) st) teams (m, x, y) in
  m' = teams_fold teams db sofa_players_of m /\
  x' + y' = x + y + Z.of_nat (length (flat_map (fun t : string * Z => sofa_players_of t.1) teams)).
Proof.
  unfold teams_fold. revert m x y.
  induction teams as [|t teams IH]; intros m x y; cbn [fold_left flat_map length];
    [split; [done|lia]|].
  pose proof (fold_count_player t.1 t.2 (get_fpl_players_by_team db t.2) (sofa_players_of t.1) m x y)
    as Hc.
  destruct (fold_left (count_player _ _ _) (sofa_players_of t.1) (m, x, y)) as [[m1 x1] y1].
  destruct Hc as [-> Hc]. specialize (IH (map_team_players t.1 t.2 (get_fpl_players_by_team db t.2)
                                            (sofa_players_of t.1) m) x1 y1).
  destruct (fold_left _ teams (_, x1, y1)) as [[m2 x2] y2]. destruct IH as [-> IH].
  split; [done|]. rewrite length_app. lia.
Qed.

Lemma build_player_mapping_eq teams db sofa_players_of :
  build_player_mapping teams db sofa_players_of =
  if forallb (fun t : string * Z => match sofa_players_of t.1 with [] => true | _ => false end) teams
  then None else Some (teams_fold teams db sofa_players_of ∅).
Proof.
  unfold build_player_mapping.
  pose proof (fold_teams_count teams db sofa_players_of ∅ 0 0) as H.
  destruct (fold_left _ teams (∅, 0, 0)) as [[m x] y]. destruct H as [-> H].
  assert (Hz : flat_map (fun t : string * Z => sofa_players_of t.1) teams = [] <->
               forallb (fun t : string * Z => match sofa_players_of t.1 with [] => true | _ => false end)
                 teams = true).
  { clear. induction teams as [|t teams IH]; simpl; [done|].
    destruct (sofa_players_of t.1); simpl; [exact IH|]. split; discriminate. }
  destruct (forallb _ teams) eqn:Ef.
  - rewrite (proj2 Hz eq_refl) in H. simpl in H. by replace (x + y =? 0) with true by (symmetry; apply Z.eqb_eq; lia).
  - destruct (flat_map _ teams) as [|sp l]; [discriminate (proj1 Hz eq_refl)|].
    simpl in H. by replace (x + y =? 0) with false by (symmetry; apply Z.eqb_neq; lia).
Qed.

Lemma get_fpl_players_by_team_in db team_id p :
  In p (get_fpl_players_by_team db team_id) ->
  exists a, In a db /\ at_team_id a = team_id /\ fp_id p = at_id a.
Proof.
  unfold get_fpl_players_by_team. intros Hp. apply in_map_iff in Hp as (a & <- & Ha).
  apply filter_In in Ha as [Ha Ht]. apply Z.eqb_eq in Ht. by exists a.
Qed.

Lemma map_player_rows teams db sofa_players_of a b m sp :
  In (a, b) teams -> In sp (sofa_players_of a) ->
  (forall k r, m !! k = Some r -> player_row_ok teams db sofa_players_of k r) ->
  forall k r, map_player a b (get_fpl_players_by_team db b) m sp !! k = Some r ->
    player_row_ok teams db sofa_players_of k r.
Proof.
  intros Ht Hsp Hm k r. unfold map_player.
  destruct (fuzzy_match_player sp (get_fpl_players_by_team db b) 75) as [[[oid w] f] sc] eqn:E.
  destruct oid as [id|]; [|apply Hm].
  destruct (negb (id =? 0) && (75 <=? sc)) eqn:C; [|apply Hm].
  apply andb_true_iff in C as [C1 C2]. apply negb_true_iff, Z.eqb_neq in C1. apply Z.leb_le in C2.
  destruct (decide (k = sp_id sp)) as [->|Hne].
  - rewrite lookup_insert_eq. intros [= <-].
    assert (Hp : 0 < snd (fuzzy_match_player sp (get_fpl_players_by_team db b) 75))
      by (rewrite E; simpl; lia).
    destruct (player_match_pos _ _ _ Hp) as (p & Hin & E'). rewrite E in E'.
    injection E' as Hid _ _ _. subst id.
    destruct (get_fpl_players_by_team_in _ _ _ Hin) as (a0 & Ha0 & Hteam & Hfid).
    unfold player_row_ok; simpl. split; [done|]. split; [done|]. split; [done|].
    split; [done|]. split; [by exists sp|]. exists a0. auto.
  - rewrite lookup_insert_ne by congruence. apply Hm.
Qed.

Lemma map_team_players_rows teams db sofa_players_of a b m :
  In (a, b) teams ->
  (forall k r, m !! k = Some r -> player_row_ok teams db sofa_players_of k r) ->
  forall k r, map_team_players a b (get_fpl_players_by_team db b) (sofa_players_of a) m !! k = Some r ->
    player_row_ok teams db sofa_players_of k r.
Proof.
  intros Ht. unfold map_team_players.
  assert (Hsub : forall sp, In sp (sofa_players_of a) -> In sp (sofa_players_of a)) by done.
  revert Hsub. generalize (sofa_players_of a) at 1 3 as l.
  intros l. revert m. induction l as [|sp l IH]; intros m Hsub Hm; simpl; [exact Hm|].
  apply IH; [intros x Hx; apply Hsub; by right|].
  apply map_player_rows; [exact Ht|apply Hsub; by left|exact Hm].
Qed.

Lemma teams_fold_rows teams db sofa_players_of l m :
  (forall t, In t l -> In t teams) ->
  (forall k r, m !! k = Some r -> player_row_ok teams db sofa_players_of k r) ->
  forall k r, teams_fold l db sofa_players_of m !! k = Some r ->
    player_row_ok teams db sofa_players_of k r.
Proof.
  unfold teams_fold. revert m. induction l as [|[a b] l IH]; intros m Hl Hm; simpl; [exact Hm|].
  apply IH; [intros t Ht; apply Hl; by right|].
  apply map_team_players_rows; [apply Hl; by left|exact Hm].
Qed.

Lemma map_player_keeps a b fp m sp k :
  is_Some (m !! k) -> is_Some (map_player a b fp m sp !! k).
Proof.
  unfold map_player. destruct (fuzzy_match_player sp fp 75) as [[[oid w] f] sc].
  destruct oid as [id|]; [|done]. destruct (_ && _); [|done]. intros H.
  destruct (decide (k = sp_id sp)) as [->|Hne]; [rewrite lookup_insert_eq; by eexists|].
  by rewrite lookup_insert_ne by congruence.
Qed.

Lemma map_team_players_keeps a b fp sps m k :
  is_Some (m !! k) -> is_Some (map_team_players a b fp sps m !! k).
Proof.
  unfold map_team_players. revert m. induction sps as [|sp sps IH]; intros m H; simpl; [exact H|].
  apply IH, map_player_keeps, H.
Qed.

Lemma teams_fold_keeps l db sofa_players_of m k :
  is_Some (m !! k) -> is_Some (teams_fold l db sofa_players_of m !! k).
Proof.
  unfold teams_fold. revert m. induction l as [|t l IH]; intros m H; simpl; [exact H|].
  apply IH, map_team_players_keeps, H.
Qed.

Lemma map_player_present a b fp m sp :
  player_mapped sp fp = true -> is_Some (map_player a b fp m sp !! sp_id sp).
Proof.
  unfold player_mapped, map_player. destruct (fuzzy_match_player sp fp 75) as [[[oid w] f] sc].
  destruct oid as [id|]; [|discriminate]. intros ->. rewrite lookup_insert_eq. by eexists.
Qed.

Lemma map_team_players_present a b fp sps m sp :
  In sp sps -> player_mapped sp fp = true -> is_Some (map_team_players a b fp sps m !! sp_id sp).
Proof.
  revert m. induction sps as [|sp' sps IH]; intros m Hin Hpm; [destruct Hin|].
  change (map_team_players a b fp (sp' :: sps) m) with
    (map_team_players a b fp sps (map_player a b fp m sp')).
  destruct Hin as [->|Hin].
  - apply map_team_players_keeps, map_player_present, Hpm.
  - by apply IH.
Qed.

Lemma teams_fold_present l db sofa_players_of m t sp :
  In t l -> In sp (sofa_players_of t.1) ->
  player_mapped sp (get_fpl_players_by_team db t.2) = true ->
  is_Some (teams_fold l db sofa_players_of m !! sp_id sp).
Proof.
  unfold teams_fold. revert m. induction l as [|t' l IH]; intros m Ht Hsp Hpm; [destruct Ht|].
  simpl. destruct Ht as [->|Ht]; [|by apply IH].
  apply teams_fold_keeps, map_team_players_present; [exact Hsp|exact Hpm].
Qed.

(** X19: the player mapping raises its division by zero exactly when no mapped team has a SofaSport player; otherwise it returns the players mapped team by team. *)
Theorem player_mapping_none_without_players teams db sofa_players_of :
  build_player_mapping teams db sofa_players_of =
  if forallb (fun t : string * Z => match sofa_players_of t.1 with [] => true | _ => false end) teams
  then None
  else Some (fold_left (fun m (t : string * Z) =>
               map_team_players t.1 t.2 (get_fpl_players_by_team db t.2) (sofa_players_of t.1) m)
             teams ∅).
Proof. apply build_player_mapping_eq. Qed.

(** X20: every row of a player mapping has its SofaSport id as key, a non-zero FPL id, a score of at least 75, a team pair of the input, a SofaSport player of that team and an FPL athlete of that team; every player that passes the match is mapped. *)
Theorem player_mapping_rows teams db sofa_players_of m :
  build_player_mapping teams db sofa_players_of = Some m ->
  (forall k r, m !! k = Some r ->
     pr_sofasport_id r = k /\ pr_fpl_id r <> 0 /\ 75 <= pr_match_score r /\
     In (pr_sofasport_team_id r, pr_fpl_team_id r) teams /\
     (exists sp, In sp (sofa_players_of (pr_sofasport_team_id r)) /\ sp_id sp = k /\
        sp_name sp = pr_sofasport_name r) /\
     exists a, In a db /\ at_id a = pr_fpl_id r /\ at_team_id a = pr_fpl_team_id r) /\
  (forall t sp, In t teams -> In sp (sofa_players_of t.1) ->
     player_mapped sp (get_fpl_players_by_team db t.2) = true -> is_Some (m !! sp_id sp)).
Proof.
  rewrite build_player_mapping_eq. destruct (forallb _ _); [discriminate|]. intros [= <-].
  split.
  - apply teams_fold_rows; [done|]. intros k r. by rewrite lookup_empty.
  - intros t sp Ht Hsp Hpm. exact (teams_fold_present _ _ _ _ _ _ Ht Hsp Hpm).
Qed.

Lemma player_mapping_rows_witness :
  exists r, player_map_sample !! sp_id salah_sofa = Some r /\
    pr_fpl_id r <> 0 /\ 75 <= pr_match_score r.
Proof.
  destruct (player_mapping_rows [("17", 14)] [salah_rec] sofa_players_sample player_map_sample)
    as [H Hp]; [vm_compute; reflexivity|].
  destruct (Hp ("17", 14) salah_sofa) as [r Hr];
    [left; reflexivity|left; reflexivity|vm_compute; reflexivity|].
  exists r. destruct (H _ r Hr) as (_ & H2 & H3 & _). by split; [|split].
Defined.

End MappingProofs.


Module ManagerRowProofs.
Import Top100 PassMeasures StoreProofs FrameProofs ExtraDefs Samples.










End ManagerRowProofs.
